(** * occi-cad/api: parametric compute identity, variant enumeration and
      job-status reconciliation

    A shallow embedding of [occilib/CadScript.py], [occilib/Admin.py] and the
    job-status endpoint of [main.py], with the properties of the
    specification stated over it.

    Conventions.
    - A Python [str] is the [string] of the bytes of its UTF-8 encoding:
      [encode()] reads the bytes off, [len] counts the characters
      ([str_len]), and what Python computes from its Unicode tables
      ([str.lower]) is a parameter of the code that uses it.
    - A Python [dict] is an association list in insertion order with unique
      keys; [dict_set] is [d[k] = v].
    - A Python call that may raise returns a [PyResult]. *)

From Stdlib Require Import ZArith List String Ascii Bool Lia Permutation.
From Stdlib Require Import Numbers.DecimalString.
Import ListNotations.

Local Open Scope string_scope.
Local Open Scope Z_scope.

(** ** Python results and exceptions *)

Inductive PyExc : Type :=
| AttributeError
| TypeError
| ValidationError
| HTTPException (status_code : Z).

Inductive PyResult (A : Type) : Type :=
| Ok (a : A)
| Raise (e : PyExc).

Arguments Ok {A} a.
Arguments Raise {A} e.

Definition bind {A B : Type} (m : PyResult A) (k : A -> PyResult B) : PyResult B :=
  match m with
  | Ok a => k a
  | Raise e => Raise e
  end.

Notation "x <- m ;; k" := (bind m (fun x => k))
  (at level 61, m at next level, right associativity).

(** ** Python values held by a parameter assignment ([Dict[str, Any]]) *)

Inductive PyVal : Type :=
| VInt (z : Z)
| VStr (s : string)
| VBool (b : bool)
| VNone.

Definition Z_to_string (z : Z) : string :=
  NilZero.string_of_int (Z.to_int z).

(** [format(v)] as an f-string replacement field renders it. *)
Definition py_format (v : PyVal) : string :=
  match v with
  | VInt z => Z_to_string z
  | VStr s => s
  | VBool true => "True"
  | VBool false => "False"
  | VNone => "None"
  end.

(** ** Insertion-ordered dictionaries *)

Section Dict.
Context {V : Type}.

Definition dict : Type := list (string * V).

Fixpoint dict_get (d : dict) (k : string) : option V :=
  match d with
  | [] => None
  | (k', v) :: d' => if String.eqb k k' then Some v else dict_get d' k
  end.

Definition dict_mem (d : dict) (k : string) : bool :=
  match dict_get d k with Some _ => true | None => false end.

(** [d[k] = v]: an existing key keeps its position, a new key goes last. *)
Fixpoint dict_set (d : dict) (k : string) (v : V) : dict :=
  match d with
  | [] => [(k, v)]
  | (k', v') :: d' =>
      if String.eqb k k' then (k', v) :: d' else (k', v') :: dict_set d' k v
  end.

Definition dict_keys (d : dict) : list string := map fst d.
Definition dict_values (d : dict) : list V := map snd d.

(** The dictionary built by inserting the pairs of [l], in order, into [d]. *)
Definition dict_update (d : dict) (l : list (string * V)) : dict :=
  fold_left (fun acc kv => dict_set acc (fst kv) (snd kv)) l d.

Definition dict_of_pairs (l : list (string * V)) : dict := dict_update [] l.
End Dict.

Arguments dict V : clear implicits.

(** ** MD5 (RFC 1321), [hashlib.md5] *)

Module MD5.

Definition mask32 : Z := 4294967295.
Definition w32 (x : Z) : Z := Z.land x mask32.
Definition add32 (x y : Z) : Z := w32 (x + y).
Definition not32 (x : Z) : Z := Z.lxor x mask32.
Definition rotl32 (x c : Z) : Z :=
  w32 (Z.lor (Z.shiftl x c) (Z.shiftr x (32 - c))).

Definition K : list Z :=
  [ 3614090360; 3905402710; 606105819; 3250441966;
    4118548399; 1200080426; 2821735955; 4249261313;
    1770035416; 2336552879; 4294925233; 2304563134;
    1804603682; 4254626195; 2792965006; 1236535329;
    4129170786; 3225465664; 643717713; 3921069994;
    3593408605; 38016083; 3634488961; 3889429448;
    568446438; 3275163606; 4107603335; 1163531501;
    2850285829; 4243563512; 1735328473; 2368359562;
    4294588738; 2272392833; 1839030562; 4259657740;
    2763975236; 1272893353; 4139469664; 3200236656;
    681279174; 3936430074; 3572445317; 76029189;
    3654602809; 3873151461; 530742520; 3299628645;
    4096336452; 1126891415; 2878612391; 4237533241;
    1700485571; 2399980690; 4293915773; 2240044497;
    1873313359; 4264355552; 2734768916; 1309151649;
    4149444226; 3174756917; 718787259; 3951481745 ].

Definition shifts : list Z :=
  [ 7; 12; 17; 22; 7; 12; 17; 22; 7; 12; 17; 22; 7; 12; 17; 22;
    5; 9; 14; 20; 5; 9; 14; 20; 5; 9; 14; 20; 5; 9; 14; 20;
    4; 11; 16; 23; 4; 11; 16; 23; 4; 11; 16; 23; 4; 11; 16; 23;
    6; 10; 15; 21; 6; 10; 15; 21; 6; 10; 15; 21; 6; 10; 15; 21 ].

Record state : Type := mkState { sA : Z; sB : Z; sC : Z; sD : Z }.

Definition init : state :=
  mkState 1732584193 4023233417 2562383102 271733878.

(** The non-linear function and the message-word index of round [i]. *)
Definition round_fg (i : Z) (b c d : Z) : Z * Z :=
  if i <? 16 then (Z.lor (Z.land b c) (Z.land (not32 b) d), i)
  else if i <? 32 then (Z.lor (Z.land d b) (Z.land (not32 d) c), (5 * i + 1) mod 16)
  else if i <? 48 then (Z.lxor (Z.lxor b c) d, (3 * i + 5) mod 16)
  else (Z.lxor c (Z.lor b (not32 d)), (7 * i) mod 16).

Definition step (m : list Z) (st : state) (i : Z) : state :=
  let '(mkState a b c d) := st in
  let '(f, g) := round_fg i b c d in
  let n := Z.to_nat i in
  let f' := add32 (add32 (add32 f a) (nth n K 0)) (nth (Z.to_nat g) m 0) in
  mkState d (add32 b (rotl32 f' (nth n shifts 0))) b c.

Definition rounds : list Z := map Z.of_nat (seq 0 64).

(** One 512-bit block, given as sixteen little-endian words. *)
Definition compress (st : state) (m : list Z) : state :=
  let st' := fold_left (step m) rounds st in
  mkState (add32 (sA st) (sA st')) (add32 (sB st) (sB st'))
          (add32 (sC st) (sC st')) (add32 (sD st) (sD st')).

Fixpoint le_bytes (n : nat) (x : Z) : list Z :=
  match n with
  | O => []
  | S n' => Z.land x 255 :: le_bytes n' (Z.shiftr x 8)
  end.

Fixpoint le_word (bs : list Z) : Z :=
  match bs with
  | [] => 0
  | b :: bs' => b + 256 * le_word bs'
  end.

(** Message, then 0x80, then zeros up to 56 mod 64, then the bit length. *)
Definition pad (msg : list Z) : list Z :=
  let len := Z.of_nat (List.length msg) in
  let zeros := Z.to_nat ((55 - len) mod 64) in
  (msg ++ [128] ++ repeat 0 zeros ++ le_bytes 8 ((8 * len) mod 2 ^ 64))%list.

Fixpoint words (fuel : nat) (bs : list Z) : list Z :=
  match fuel with
  | O => []
  | S fuel' =>
      match bs with
      | [] => []
      | _ => le_word (firstn 4 bs) :: words fuel' (skipn 4 bs)
      end
  end.

Fixpoint blocks (fuel : nat) (ws : list Z) : list (list Z) :=
  match fuel with
  | O => []
  | S fuel' =>
      match ws with
      | [] => []
      | _ => firstn 16 ws :: blocks fuel' (skipn 16 ws)
      end
  end.

Definition digest (msg : list Z) : list Z :=
  let bs := pad msg in
  let ws := words (List.length bs) bs in
  let st := fold_left compress (blocks (List.length ws) ws) init in
  (le_bytes 4 (sA st) ++ le_bytes 4 (sB st) ++ le_bytes 4 (sC st) ++ le_bytes 4 (sD st))%list.

End MD5.

(** ** URL-safe base64, [base64.urlsafe_b64encode] *)

Module Base64.

Definition alphabet : string :=
  "ABCDEFGHIJKLMNOPQRSTUVWXYZabcdefghijklmnopqrstuvwxyz0123456789-_".

Definition sextet (i : Z) : ascii :=
  match String.get (Z.to_nat i) alphabet with
  | Some c => c
  | None => "="%char
  end.

Fixpoint encode (bs : list Z) : string :=
  match bs with
  | [] => ""
  | [a] =>
      String (sextet (Z.shiftr a 2))
        (String (sextet (Z.land (Z.shiftl a 4) 63)) "==")
  | [a; b] =>
      String (sextet (Z.shiftr a 2))
        (String (sextet (Z.land (Z.lor (Z.shiftl a 4) (Z.shiftr b 4)) 63))
           (String (sextet (Z.land (Z.shiftl b 2) 63)) "="))
  | a :: b :: c :: rest =>
      String (sextet (Z.shiftr a 2))
        (String (sextet (Z.land (Z.lor (Z.shiftl a 4) (Z.shiftr b 4)) 63))
           (String (sextet (Z.land (Z.lor (Z.shiftl b 2) (Z.shiftr c 6)) 63))
              (String (sextet (Z.land c 63)) (encode rest))))
  end.

End Base64.

(** [str.encode()] on the byte strings of this development. *)
Definition str_encode (s : string) : list Z :=
  map (fun c => Z.of_nat (nat_of_ascii c)) (list_ascii_of_string s).

(** [s[:n]] *)
Definition str_prefix (n : nat) (s : string) : string := String.substring 0 n s.

(** ** [CadScript._hash] *)

Definition HASH_LENGTH_TRUNCATE : nat := 11.

Definition _hash (inp : string) : string :=
  str_prefix HASH_LENGTH_TRUNCATE (Base64.encode (MD5.digest (str_encode inp))).

(** ** Data model *)

(** [occilib/Param.py] is not part of the sources at hand: a parameter
    definition is taken with the attributes [CadScript] reads from it, and
    [param_values] is what its method [values()] returns, [None] being the
    sentinel of an unbounded domain. *)
Record ParamConfig : Type := mkParam {
  param_name : string;
  param_default : PyVal;
  param_enabled : bool;
  param_iterable : bool;
  param_values : option (list PyVal)
}.

(** [class ModelRequest(BaseModel)] *)
Record ModelRequest : Type := mkModelRequest {
  req_created_at : Z;
  req_hash : option string;
  req_params : dict PyVal;
  req_format : string;
  req_output : option string;
  req_quality : string;
  req_batch_id : option string;
  req_batch_on_end_action : string;
  req_settings : dict PyVal
}.

(** [class CadScript(BaseModel)] *)
Record CadScript : Type := mkCadScript {
  id : option string;
  org : option string;
  name : string;
  title : option string;
  namespace : option string;
  author : option string;
  license : option string;
  version : string;
  url : option string;
  description : option string;
  created_at : Z;
  updated_at : Z;
  prev_version : option string;
  safe : bool;
  published : bool;
  units : option string;
  params : dict ParamConfig;
  param_presets : dict (dict PyVal);
  public_code : bool;
  code : option string;
  cad_engine : string;
  cad_engine_version : option string;
  cad_engine_config : option (dict PyVal);
  secret_edit_token : option string;
  meta : dict PyVal
}.

(** [class CadScriptRequest(CadScript)]: the fields of [CadScript] and two
    more.  [request] is declared [ModelRequest], which excludes [None]. *)
Record CadScriptRequest : Type := mkCadScriptRequest {
  base : CadScript;
  status : string;
  request : ModelRequest
}.

(** The receiver [self] of a [CadScript] method: an instance of the class
    itself, which has no attribute [request], or of [CadScriptRequest]. *)
Inductive ScriptObject : Type :=
| PlainScript (s : CadScript)
| RequestScript (r : CadScriptRequest).

Definition script_of (self : ScriptObject) : CadScript :=
  match self with
  | PlainScript s => s
  | RequestScript r => base r
  end.

Definition request_of (self : ScriptObject) : option ModelRequest :=
  match self with
  | PlainScript _ => None
  | RequestScript r => Some (request r)
  end.

(** [self.request.hash = h] *)
Definition set_req_hash (r : ModelRequest) (h : option string) : ModelRequest :=
  mkModelRequest (req_created_at r) h (req_params r) (req_format r)
    (req_output r) (req_quality r) (req_batch_id r)
    (req_batch_on_end_action r) (req_settings r).

(** ** [CadScript.hash] *)

(** The loop [for name, param_value in params.items():
    params_str += f'{name}={param_value}&']. *)
Definition params_str (params : dict PyVal) : string :=
  match params with
  | [] => ""
  | _ =>
      fold_left
        (fun acc kv => acc ++ fst kv ++ "=" ++ py_format (snd kv) ++ "&")
        params ""
  end.

(** The value computed by [hash] for the script called [nm]. *)
Definition hash_of (nm : string) (params : dict PyVal) : string :=
  _hash (nm ++ params_str params).

(** [hash(self, params=None)]: the returned value and [self] afterwards. *)
Definition hash (self : ScriptObject) (params : option (dict PyVal))
  : option string * ScriptObject :=
  let given :=
    match params with
    | Some p => Some p
    | None =>
        match self with
        | PlainScript _ => None
        | RequestScript r => Some (req_params (request r))
        end
    end in
  match given with
  | None => (None, self)
  | Some p =>
      let h := hash_of (name (script_of self)) p in
      match self with
      | PlainScript _ => (Some h, self)
      | RequestScript r =>
          (Some h,
           RequestScript
             (mkCadScriptRequest (base r) (status r)
                (set_req_hash (request r) (Some h))))
      end
  end.

(** ** [CadScript.is_cachable] *)

Fixpoint is_cachable_loop (ps : list ParamConfig) : bool :=
  match ps with
  | [] => true
  | param :: ps' =>
      if negb (param_iterable param) then false else is_cachable_loop ps'
  end.

Definition is_cachable (s : CadScript) : bool :=
  is_cachable_loop (dict_values (params s)).

(** ** [CadScript.iterate_possible_model_params_dicts] *)

(** [itertools.product] of the pools: the rightmost pool advances fastest. *)
Fixpoint product {A : Type} (pools : list (list A)) : list (list A) :=
  match pools with
  | [] => [[]]
  | pool :: rest => flat_map (fun x => map (cons x) (product rest)) pool
  end.

(** Unpacking the argument list [all_values_per_parameter]: a [None] among
    the arguments is not iterable. *)
Fixpoint iter_all {A : Type} (args : list (option (list A)))
  : PyResult (list (list A)) :=
  match args with
  | [] => Ok []
  | None :: _ => Raise TypeError
  | Some l :: rest => ls <- iter_all rest ;; Ok (l :: ls)
  end.

Definition all_values_per_parameter (s : CadScript)
  : list (option (list PyVal)) :=
  map (fun param =>
         if param_enabled param then param_values param
         else Some [param_default param])
      (dict_values (params s)).

(** [param_values[list(self.params.values())[index].name] = value] for
    [index, value] in [enumerate(combination)]; a combination holds one value
    per parameter. *)
Definition param_values_of (s : CadScript) (combination : list PyVal)
  : dict PyVal :=
  dict_of_pairs
    (map (fun pv => (param_name (fst pv), snd pv))
       (combine (dict_values (params s)) combination)).

(** The body of the [for combination in ...] loop, over all combinations:
    the items yielded and [self] afterwards. *)
Fixpoint yield_each (self : ScriptObject) (combinations : list (list PyVal))
  : list (option string * dict PyVal) * ScriptObject :=
  match combinations with
  | [] => ([], self)
  | combination :: rest =>
      let param_values := param_values_of (script_of self) combination in
      let param_set := dict_of_pairs param_values in
      let '(param_set_hash, self1) := hash self (Some param_set) in
      let '(items, self2) := yield_each self1 rest in
      ((param_set_hash, param_values) :: items, self2)
  end.

Definition iterate_possible_model_params_dicts (self : ScriptObject)
  : PyResult (list (option string * dict PyVal) * ScriptObject) :=
  pools <- iter_all (all_values_per_parameter (script_of self)) ;;
  Ok (yield_each self (product pools)).

(** ** [CadScript.all_possible_model_params_dicts] *)

(** [self.hash(param_set)], the call with its argument given: the string
    returned and [self] afterwards. *)
Definition hash_with (self : ScriptObject) (params : dict PyVal)
  : string * ScriptObject :=
  let h := hash_of (name (script_of self)) params in
  match self with
  | PlainScript _ => (h, self)
  | RequestScript r =>
      (h,
       RequestScript
         (mkCadScriptRequest (base r) (status r)
            (set_req_hash (request r) (Some h))))
  end.

(** The body of [for combination in all_combinations], over all
    combinations: [all_model_param_sets] and [self] afterwards. *)
Fixpoint collect_each (self : ScriptObject) (combinations : list (list PyVal))
  (all_model_param_sets : dict (dict PyVal))
  : dict (dict PyVal) * ScriptObject :=
  match combinations with
  | [] => (all_model_param_sets, self)
  | combination :: rest =>
      let param_values := param_values_of (script_of self) combination in
      let param_set := dict_of_pairs param_values in
      let '(param_set_hash, self1) := hash_with self param_set in
      collect_each self1 rest
        (dict_set all_model_param_sets param_set_hash param_values)
  end.

Definition all_possible_model_params_dicts (self : ScriptObject)
  : PyResult (dict (dict PyVal) * ScriptObject) :=
  if negb (is_cachable (script_of self)) then Ok ([], self)
  else
    pools <- iter_all (all_values_per_parameter (script_of self)) ;;
    let all_combinations := product pools in
    Ok (collect_each self all_combinations []).

(** ** [CadScript.get_num_variants] *)

(** What the generator expression
    [(pn, self.params[pn]) for pn in only_params if pn in self.params]
    produces for one name. *)
Definition pick (ps : dict ParamConfig) (pn : string)
  : list (string * ParamConfig) :=
  match dict_get ps pn with
  | Some param => [(pn, param)]
  | None => []
  end.

(** [dict((pn, self.params[pn]) for pn in only_params if pn in self.params)] *)
Definition select_params (ps : dict ParamConfig) (only_params : list string)
  : dict ParamConfig :=
  dict_of_pairs (flat_map (pick ps) only_params).

Definition selected_params (s : CadScript) (only_params : option (list string))
  : dict ParamConfig :=
  match only_params with
  | None => params s
  | Some l => select_params (params s) l
  end.

Fixpoint num_variants_loop (ps : list ParamConfig) (num_combinations : Z)
  : option Z :=
  match ps with
  | [] => Some num_combinations
  | param_obj :: ps' =>
      if param_enabled param_obj then
        match param_values param_obj with
        | None => None
        | Some v =>
            num_variants_loop ps' (num_combinations * Z.of_nat (List.length v))
        end
      else num_variants_loop ps' num_combinations
  end.

Definition get_num_variants (s : CadScript) (only_params : option (list string))
  : option Z :=
  num_variants_loop (dict_values (selected_params s only_params)) 1.

(** ** The scenario of the specification: script [box] *)

(** A script of organisation [acme] with the given name and parameters. *)
Definition make_script (nm : string) (ps : dict ParamConfig) : CadScript :=
  mkCadScript (Some ("acme/" ++ nm ++ "/1.0")) (Some "acme") nm None
    (Some ("acme/" ++ nm)) None None "1.0" None None 0 0 None false true None
    ps [] false (Some "result = solid(width)") "cadquery" None None None [].

Module Box.

Definition width : ParamConfig :=
  mkParam "width" (VInt 1) true true (Some [VInt 1; VInt 2; VInt 3]).

Definition color : ParamConfig :=
  mkParam "color" (VStr "red") true true (Some [VStr "red"; VStr "blue"]).

Definition script : CadScript :=
  make_script "box" [("width", width); ("color", color)].

Definition empty_request : ModelRequest :=
  mkModelRequest 0 None [] "step" None "high" None "publish" [].

Definition script_request : CadScriptRequest :=
  mkCadScriptRequest script "success" empty_request.

End Box.

(** ** [ModelRequest.get_param_query_string] *)

(** Assignment to an attribute of a built-in [list]: its attributes are
    read-only and it has no instance dictionary. *)
Definition list_setattr (l : list string) (attr : string) (v : string)
  : PyResult (list string) :=
  Raise AttributeError.

(** [for param_name, param_value in self.params.items():
    query_param_values.append = f'{param_name}={param_value}'] *)
Fixpoint query_param_loop (items : list (string * PyVal))
  (query_param_values : list string) : PyResult (list string) :=
  match items with
  | [] => Ok query_param_values
  | (param_name, param_value) :: rest =>
      l <- list_setattr query_param_values "append"
             (param_name ++ "=" ++ py_format param_value) ;;
      query_param_loop rest l
  end.

(** [x or y] on an optional string. *)
Definition str_or (x : option string) (y : string) : string :=
  match x with
  | None => y
  | Some "" => y
  | Some s => s
  end.

Definition get_param_query_string (self : ModelRequest) : PyResult string :=
  query_param_values <- query_param_loop (req_params self) [] ;;
  let query_param_values_string :=
    if (0 <? Z.of_nat (List.length query_param_values))
    then "&" ++ String.concat "&" query_param_values
    else "" in
  Ok ("?format=" ++ req_format self ++ "&output="
        ++ str_or (req_output self) "model" ++ query_param_values_string).

(** ** [class ModelComputeJob(BaseModel)] *)

Record ModelComputeJob : Type := mkModelComputeJob {
  job_status : string;
  celery_task_id : option string;
  celery_task_status : option string;
  job_script : option CadScriptRequest;
  elapsed_time : option Z
}.

(** ** The job-status endpoint of [main.py] *)

Module JobStatus.
Section Endpoint.

(** What the endpoint consumes from Celery, from pydantic and from
    [CadLibrary], none of which is among the sources at hand. *)
Variable ResultDict : Type.        (* a mapping held by a task result *)
Variable CadScriptResult : Type.   (* instances of [class CadScriptResult] *)
Variable Library : Type.

(** The object [celery_task_result.result] holds: the mapping a finished
    task returned, or something else (the exception of a revoked or failed
    task, or nothing). *)
Inductive TaskResult : Type :=
| ResultMapping (d : ResultDict)
| ResultOther.

(** What the result backend answers about a task at one moment: [state]
    (which [status] aliases), what [ready()] returns, and [result]. *)
Record TaskMeta : Type := mkTaskMeta {
  state : string;
  ready : bool;
  result : TaskResult
}.

(** [AsyncResult(celery_task_id)]: every read of [state], [ready()],
    [result] or [status] asks the backend, whose answer may have moved on
    since the read before.  [AsyncResult_read id n] is the answer to the
    read number [n] that the endpoint makes about task [id]. *)
Variable AsyncResult_read : string -> nat -> TaskMeta.

(** [CadScriptResult] called with the items of a mapping [d] as keyword
    arguments: pydantic validates the fields and may raise. *)
Variable CadScriptResult_of_dict : ResultDict -> PyResult CadScriptResult.

Variable _apply_single_model_format :
  Library -> CadScriptResult -> CadScriptResult.
Variable get_script_request :
  Library -> string -> string -> string -> option CadScriptRequest.
Variable check_script_model_computing_job :
  Library -> option CadScriptRequest -> string -> option ModelComputeJob.

(** [CadScriptResult] called with [x] unpacked into keyword arguments:
    unpacking something that is not a mapping is a [TypeError]. *)
Definition CadScriptResult_unpack (x : TaskResult) : PyResult CadScriptResult :=
  match x with
  | ResultMapping d => CadScriptResult_of_dict d
  | ResultOther => Raise TypeError
  end.

Inductive Body : Type :=
| ResultBody (script_result : CadScriptResult)
| JobBody (job : ModelComputeJob).

Record Response : Type := mkResponse {
  status_code : Z;
  body : Body
}.

Definition HTTP_200_OK : Z := 200.
Definition HTTP_202_ACCEPTED : Z := 202.

(** [x in l] on strings. *)
Definition str_in (x : string) (l : list string) : bool :=
  existsb (String.eqb x) l.

(** [job.celery_task_status = celery_task_result.status] *)
Definition set_celery_task_status (job : ModelComputeJob) (st : string)
  : ModelComputeJob :=
  mkModelComputeJob (job_status job) (celery_task_id job) (Some st)
    (job_script job) (elapsed_time job).

Definition get_model_compute_task (library : Library)
  (script_org script_name script_version script_instance_hash : string)
  (task_id : string) : PyResult Response :=
  let celery_task_result := AsyncResult_read task_id in
  if str_in (state (celery_task_result 0%nat)) ["PENDING"; "FAILURE"] then
    Raise (HTTPException 404)
  else if ready (celery_task_result 1%nat) then
    let script_result_dict := result (celery_task_result 2%nat) in
    script_result <- CadScriptResult_unpack script_result_dict ;;
    let script_result := _apply_single_model_format library script_result in
    Ok (mkResponse HTTP_200_OK (ResultBody script_result))
  else
    let script :=
      get_script_request library script_org script_name script_version in
    let job :=
      check_script_model_computing_job library script script_instance_hash in
    match job with
    | None => Raise (HTTPException 404)
    | Some job =>
        let job :=
          set_celery_task_status job (state (celery_task_result 2%nat)) in
        Ok (mkResponse HTTP_202_ACCEPTED (JobBody job))
    end.

End Endpoint.

Arguments ResultMapping {ResultDict} _.
Arguments ResultOther {ResultDict}.
Arguments mkTaskMeta {ResultDict} _ _ _.
Arguments state {ResultDict} _.
Arguments ready {ResultDict} _.
Arguments result {ResultDict} _.
Arguments ResultBody {CadScriptResult} _.
Arguments JobBody {CadScriptResult} _.
Arguments mkResponse {CadScriptResult} _ _.
Arguments status_code {CadScriptResult} _.
Arguments body {CadScriptResult} _.

End JobStatus.

(** ** [occilib/Admin.py] *)

Definition ascii_lower (c : ascii) : ascii :=
  let n := nat_of_ascii c in
  if (Nat.leb 65 n && Nat.leb n 90)%bool then ascii_of_nat (n + 32) else c.

(** Lower-casing of the letters [A] to [Z]: what [str.lower()] does to an
    ASCII text.  It only instantiates the parameter [lower] of the admin
    routes in the examples, whose texts are ASCII. *)
Definition ascii_str_lower (s : string) : string :=
  string_of_list_ascii (map ascii_lower (list_ascii_of_string s)).

(** [str.split(sep)] for a one-character separator. *)
Fixpoint str_split (sep : ascii) (s : string) : list string :=
  match s with
  | EmptyString => [""]
  | String c s' =>
      if Ascii.eqb c sep then "" :: str_split sep s'
      else
        match str_split sep s' with
        | [] => [String c ""]
        | w :: ws => String c w :: ws
        end
  end.

(** A byte [10xxxxxx], which continues a character of a UTF-8 text. *)
Definition is_continuation_byte (c : ascii) : bool :=
  let n := nat_of_ascii c in (Nat.leb 128 n && Nat.ltb n 192)%bool.

(** [len(s)]: the number of characters, each of which starts with exactly
    one byte that is not a continuation byte. *)
Definition str_len (s : string) : Z :=
  Z.of_nat
    (List.length
       (filter (fun c => negb (is_continuation_byte c))
          (list_ascii_of_string s))).

(** [CadScript.get_namespace(self)] with no argument given. *)
Definition get_namespace (s : CadScript) : option string :=
  match org s with
  | Some o =>
      if ((0 <? str_len o) && (0 <? str_len (name s)))%bool
      then Some (o ++ "/" ++ name s)
      else None
  | None => None
  end.

(** [script.is_pre_cachable()]: [class CadScript], which [CadScript.py]
    holds in full, defines no attribute of this name and neither does its
    base class, so looking the attribute up raises [AttributeError] and
    nothing is called. *)
Definition is_pre_cachable (s : CadScript) : PyResult bool :=
  Raise AttributeError.

Module Admin.

Record HTTPBasicCredentials : Type := mkCredentials {
  username : string;
  password : string
}.

Record PublishRequest : Type := mkPublishRequest {
  pre_calculate : bool;
  script : option CadScript
}.

Inductive PublishJobStatus : Type := success | computing | error.

(** The callbacks handed to [compute_script_cache_async]. *)
Inductive OnDone : Type :=
| PublishDone (pub_job_id : string)   (* sets the publish job to [success] *)
| PrecalcDone.                        (* logs *)

(** A coroutine [library.compute_script_cache_async(...)] handed to
    [asyncio.create_task]: it is this coroutine that enumerates the
    variants and submits the batch to the workers. *)
Record CacheTask : Type := mkCacheTask {
  task_script : ScriptObject;
  only_params : option (list string);
  compute_batch_id : string;
  on_done : OnDone
}.

Definition SCRIPT_ORG_MIN_CHARS : Z := 4.
Definition SCRIPT_NAME_MIN_CHARS : Z := 4.
Definition SCRIPT_CODE_MIN_CHARS : Z := 10.
Definition SECURITY_ADMIN_USERNAME : string := "admin".
Definition HTTP_401_UNAUTHORIZED : Z := 401.

Section Admin.

(** [CadLibrary], [ApiGenerator] and [models.ComputeBatchStats] are not
  among the sources at hand. *)
Variable Library : Type.
Variable Api : Type.
Variable ComputeBatchStats : Type.
Variable add_script : Library -> CadScript -> bool * Library.
Variable get_script_request :
Library -> string -> string -> string -> option CadScriptRequest.
Variable get_compute_batch : Library -> string -> option ComputeBatchStats.
Variable _generate_version_endpoint : Api -> CadScript -> Api.
Variable _generate_default_version_endpoint : Api -> CadScript -> Api.

(** [str.lower()], which Python computes from the Unicode case tables. *)
Variable lower : string -> string.

(** Defaults of [PublishJob] evaluated once, when the class is created. *)
Variable default_job_id : string.
Variable default_now : Z.

Record PublishJob : Type := mkPublishJob {
job_id : string;
job_created_at : Z;
job_updated_at : Z;
pub_script : CadScript;
pub_status : option PublishJobStatus;
stats : option ComputeBatchStats
}.

(** The [Admin] instance and what it reaches: the library, the generated
  endpoints, the tasks given to the event loop, the publish jobs. *)
Record AdminState : Type := mkAdminState {
passphrase : string;
library : Library;
api : Api;
created_tasks : list CacheTask;
publish_jobs : dict PublishJob
}.

Definition with_library (st : AdminState) (l : Library) : AdminState :=
mkAdminState (passphrase st) l (api st) (created_tasks st) (publish_jobs st).
Definition with_api (st : AdminState) (a : Api) : AdminState :=
mkAdminState (passphrase st) (library st) a (created_tasks st) (publish_jobs st).
(** [asyncio.create_task(t)] *)
Definition create_task (st : AdminState) (t : CacheTask) : AdminState :=
mkAdminState (passphrase st) (library st) (api st)
  (created_tasks st ++ [t]) (publish_jobs st).
Definition with_publish_jobs (st : AdminState) (j : dict PublishJob)
: AdminState :=
mkAdminState (passphrase st) (library st) (api st) (created_tasks st) j.

(** [secrets.compare_digest] on the encoded strings. *)
Definition compare_digest (a b : string) : bool := String.eqb a b.

Definition _validate_credentials (st : AdminState)
(credentials : HTTPBasicCredentials) : PyResult HTTPBasicCredentials :=
let r := (compare_digest (username credentials) SECURITY_ADMIN_USERNAME
          && compare_digest (password credentials) (passphrase st))%bool in
if negb r then Raise (HTTPException HTTP_401_UNAUTHORIZED)
else Ok credentials.

Definition _check_publish_request (req : PublishRequest) : PyResult bool :=
match script req with
| None => Raise (HTTPException 400)
| Some s =>
    match get_namespace s with
    | None => Raise (HTTPException 400)
    | Some _ =>
        match org s with
        | None => Raise TypeError
        | Some o =>
            if str_len o <? SCRIPT_ORG_MIN_CHARS then
              Raise (HTTPException 400)
            else if str_len (name s) <? SCRIPT_NAME_MIN_CHARS then
              Raise (HTTPException 400)
            else
              match code s with
              | None => Raise (HTTPException 400)
              | Some c =>
                  if str_len c <? SCRIPT_CODE_MIN_CHARS then
                    Raise (HTTPException 400)
                  else Ok true
              end
        end
    end
end.

(** [uuid] is the value [str(uuid.uuid4())] takes if it is reached. *)
Definition _handle_publish_request (st : AdminState) (req : PublishRequest)
(uuid : string) : PyResult PublishJob * AdminState :=
match _check_publish_request req with
| Raise e => (Raise e, st)
| Ok _ =>
    match script req with
    | None => (Raise AttributeError, st)
    | Some s =>
        let '(added, lib) := add_script (library st) s in
        let st := with_library st lib in
        if negb added then (Raise (HTTPException 400), st)
        else
          let st := with_api st (_generate_version_endpoint (api st) s) in
          let st :=
            with_api st (_generate_default_version_endpoint (api st) s) in
          let no_compute :=
            (Ok (mkPublishJob default_job_id default_now default_now s
                   (Some success) None), st) in
          (* [not req.pre_calculate or not req.script.is_pre_cachable()]:
             the second operand is evaluated only when the first is false *)
          if negb (pre_calculate req) then no_compute
          else
            match is_pre_cachable s with
            | Raise e => (Raise e, st)
            | Ok pre_cachable =>
                if negb pre_cachable then no_compute
                else
                  let batch_id := uuid in
                  let st :=
                    create_task st
                      (mkCacheTask (PlainScript s) None batch_id
                         (PublishDone batch_id)) in
                  let pub_job :=
                    mkPublishJob batch_id default_now default_now s
                      (Some computing) None in
                  (Ok pub_job,
                   with_publish_jobs st
                     (dict_set (publish_jobs st) (job_id pub_job) pub_job))
            end
    end
end.

Definition _get_publish_job (st : AdminState) (id : string)
: PyResult PublishJob * AdminState :=
match dict_get (publish_jobs st) id with
| Some pub_job =>
    let pub_job :=
      mkPublishJob (job_id pub_job) (job_created_at pub_job)
        (job_updated_at pub_job) (pub_script pub_job) (pub_status pub_job)
        (get_compute_batch (library st) id) in
    (Ok pub_job,
     with_publish_jobs st (dict_set (publish_jobs st) id pub_job))
| None => (Raise (HTTPException 404), st)
end.

Definition _handle_precalc_request (st : AdminState)
(script_org script_name script_version : string)
(requested : list string)   (* the argument [params] *)
(uuid : string) : PyResult string * AdminState :=
match get_script_request (library st) script_org script_name script_version with
| None => (Raise (HTTPException 400), st)
| Some s =>
    let validated_params :=
      filter
        (fun p => existsb (String.eqb (lower p)) (map lower requested))
        (dict_keys (params (base s))) in
    match validated_params with
    | [] => (Raise (HTTPException 400), st)
    | _ =>
        let batch_id := uuid in
        (Ok batch_id,
         create_task st
           (mkCacheTask (RequestScript s) (Some validated_params)
              batch_id PrecalcDone))
    end
end.

(** *** The routes added by [_add_admin_endpoints]

  A parameter [credentials = Depends(self._validate_credentials)] makes
  the framework run [_validate_credentials] before the route's body; a
  route without it is served as it is. *)

Inductive AdminResponse : Type :=
| JobResponse (job : PublishJob)
| ScriptIdResponse (script_id : Z)
| BatchIdResponse (batch_id : string)
| BatchStatsResponse (stats : option ComputeBatchStats).

Definition Outcome : Type := (PyResult AdminResponse * AdminState)%type.

Definition depends_validate_credentials (st : AdminState)
(credentials : HTTPBasicCredentials) (route_body : Outcome) : Outcome :=
match _validate_credentials st credentials with
| Raise e => (Raise e, st)
| Ok _ => route_body
end.

Definition then_respond {A : Type} (f : A -> AdminResponse)
(r : PyResult A * AdminState) : Outcome :=
(x <- fst r ;; Ok (f x), snd r).

(** [POST /admin/publish] *)
Definition publish (st : AdminState) (req : PublishRequest)
(credentials : HTTPBasicCredentials) (uuid : string) : Outcome :=
depends_validate_credentials st credentials
  (then_respond JobResponse (_handle_publish_request st req uuid)).

(** [GET /admin/publish/{job_id}] *)
Definition get_pub_job (st : AdminState) (job_id : string)
(credentials : HTTPBasicCredentials) : Outcome :=
depends_validate_credentials st credentials
  (then_respond JobResponse (_get_publish_job st job_id)).

(** [POST /admin/unpublish/{script_id:int}] *)
Definition unpublish (st : AdminState) (script_id : Z)
(credentials : HTTPBasicCredentials) : Outcome :=
depends_validate_credentials st credentials
  (Ok (ScriptIdResponse script_id), st).

(** [GET /admin/precalc/{script_org}/{script_name}/{script_version}] *)
Definition precalc (st : AdminState)
(script_org script_name script_version : string) (requested : string)
(credentials : HTTPBasicCredentials) (uuid : string) : Outcome :=
depends_validate_credentials st credentials
  (then_respond BatchIdResponse
     (_handle_precalc_request st script_org script_name script_version
        (if 0 <? str_len requested then str_split "," requested else [])
        uuid)).

(** [GET /admin/precalc/{batch_id}] *)
Definition precalc_job (st : AdminState) (batch_id : string) : Outcome :=
(Ok (BatchStatsResponse (get_compute_batch (library st) batch_id)), st).

(** A request to one of the admin routes. *)
Inductive AdminRequest : Type :=
| PostPublish (req : PublishRequest)
| GetPublishJob (job_id : string)
| PostUnpublish (script_id : Z)
| GetPrecalc (script_org script_name script_version requested : string)
| GetPrecalcJob (batch_id : string).

Definition serve (st : AdminState) (credentials : HTTPBasicCredentials)
(uuid : string) (r : AdminRequest) : Outcome :=
match r with
| PostPublish req => publish st req credentials uuid
| GetPublishJob job_id => get_pub_job st job_id credentials
| PostUnpublish script_id => unpublish st script_id credentials
| GetPrecalc o n v requested => precalc st o n v requested credentials uuid
| GetPrecalcJob batch_id => precalc_job st batch_id
end.

End Admin.

Arguments mkPublishJob {ComputeBatchStats} _ _ _ _ _ _.
Arguments job_id {ComputeBatchStats} _.
Arguments job_created_at {ComputeBatchStats} _.
Arguments job_updated_at {ComputeBatchStats} _.
Arguments pub_script {ComputeBatchStats} _.
Arguments pub_status {ComputeBatchStats} _.
Arguments stats {ComputeBatchStats} _.
Arguments mkAdminState {Library Api ComputeBatchStats} _ _ _ _ _.
Arguments passphrase {Library Api ComputeBatchStats} _.
Arguments library {Library Api ComputeBatchStats} _.
Arguments api {Library Api ComputeBatchStats} _.
Arguments created_tasks {Library Api ComputeBatchStats} _.
Arguments publish_jobs {Library Api ComputeBatchStats} _.
Arguments _validate_credentials {Library Api ComputeBatchStats} _ _.
Arguments JobResponse {ComputeBatchStats} _.
Arguments ScriptIdResponse {ComputeBatchStats} _.
Arguments BatchIdResponse {ComputeBatchStats} _.
Arguments BatchStatsResponse {ComputeBatchStats} _.

End Admin.

(** * Vocabulary of the properties *)

Definition segment (kv : string * PyVal) : string :=
  fst kv ++ "=" ++ py_format (snd kv) ++ "&".

Definition box_A : dict PyVal := [("width", VInt 1); ("color", VStr "red")].
Definition box_B : dict PyVal := [("color", VStr "red"); ("width", VInt 1)].

(** The values a parameter contributes to the enumeration. *)
Definition domain (p : ParamConfig) : list PyVal :=
  if param_enabled p then
    match param_values p with Some v => v | None => [] end
  else [param_default p].

(** A parameter is unbounded when it is enabled and [values()] is [None]. *)
Definition unbounded (p : ParamConfig) : bool :=
  (param_enabled p &&
   match param_values p with None => true | Some _ => false end)%bool.

(** Size of the domain of a bounded parameter; a disabled one counts 1. *)
Definition domain_size (p : ParamConfig) : Z :=
  if param_enabled p then
    match param_values p with
    | Some v => Z.of_nat (List.length v)
    | None => 0
    end
  else 1.

Definition Zproduct (l : list Z) : Z := fold_right Z.mul 1 l.

Definition nat_product (l : list nat) : nat := fold_right Nat.mul 1%nat l.

(** The parameters a selection names, in declaration order; all of them
    when no selection is given. *)
Definition chosen (s : CadScript) (only_params : option (list string))
  : list ParamConfig :=
  match only_params with
  | None => dict_values (params s)
  | Some names =>
      dict_values
        (filter (fun kv => existsb (String.eqb (fst kv)) names) (params s))
  end.

(** Product of the domain sizes, or [None] when a domain is unbounded. *)
Definition variant_count (ps : list ParamConfig) : option Z :=
  if existsb unbounded ps then None
  else Some (Zproduct (map domain_size ps)).

(** Number of combinations of the pools. *)
Definition weight {A : Type} (pools : list (list A)) : nat :=
  nat_product (map (@List.length A) pools).

(** Number of combinations of the parameters declared after position [j]. *)
Definition weight_after (j : nat) (ps : list ParamConfig) : nat :=
  weight (map domain (skipn (S j) ps)).

(** The pairs inserted into [param_values] for one combination. *)
Definition names_values (ps : list ParamConfig) (c : list PyVal)
  : list (string * PyVal) :=
  map (fun pv => (param_name (fst pv), snd pv)) (combine ps c).

Module Label.
(** A script whose only parameter is a free text that is switched off. *)
Definition label : ParamConfig :=
  mkParam "label" (VStr "occi") false false None.

Definition script : CadScript := make_script "label" [("label", label)].
End Label.

Module Free.
(** A script with an enabled free-text parameter. *)
Definition text : ParamConfig :=
  mkParam "text" (VStr "occi") true false None.

Definition script : CadScript :=
  make_script "nameplate" [("width", Box.width); ("text", text)].
End Free.

Module Mixed.
(** A script with an enabled free text and a label that is switched off. *)
Definition script : CadScript :=
  make_script "mixed" [("text", Free.text); ("label", Label.label)].
End Mixed.

Definition quiet_state : Admin.AdminState (list CadScript) (list CadScript) unit :=
  Admin.mkAdminState "correct horse battery staple" [] [] [] [].

(** A character of the URL-safe base64 alphabet. *)
Definition urlsafe_char (c : ascii) : bool :=
  existsb (Ascii.eqb c) (list_ascii_of_string Base64.alphabet).

Definition str_forallb (f : ascii -> bool) (s : string) : bool :=
  forallb f (list_ascii_of_string s).

(** A combination takes, for each parameter in turn, a value of its
    domain. *)
Definition in_domains (c : list PyVal) (ps : list ParamConfig) : Prop :=
  Forall2 (fun v p => In v (domain p)) c ps.

(** The entry [all_possible_model_params_dicts] stores for an assignment
    of the script called [nm]. *)
Definition keyed (nm : string) (param_values : dict PyVal)
  : string * dict PyVal :=
  (hash_of nm param_values, param_values).

(** The items yielded for the script [box], and the receiver afterwards. *)
Definition box_iteration
  : list (option string * dict PyVal) * ScriptObject :=
  match iterate_possible_model_params_dicts (PlainScript Box.script) with
  | Ok r => r
  | Raise _ => ([], PlainScript Box.script)
  end.

Module Demo.
(** A library kept as the list of its scripts; [add_script] refuses a
    script whose name is taken. *)
Definition Library : Type := list CadScript.

Definition add_script (l : Library) (s : CadScript) : bool * Library :=
  if existsb (fun x => String.eqb (name x) (name s)) l then (false, l)
  else (true, (l ++ [s])%list).

Definition get_script_request (l : Library) (o n v : string)
  : option CadScriptRequest :=
  match
    find (fun x => (String.eqb (name x) n && String.eqb (version x) v)%bool) l
  with
  | Some s => Some (mkCadScriptRequest s "success" Box.empty_request)
  | None => None
  end.

Definition get_compute_batch (l : Library) (batch_id : string) : option nat :=
  None.

Definition generate (a : list string) (s : CadScript) : list string :=
  (a ++ [name s])%list.

Definition state (l : Library) : Admin.AdminState Library (list string) nat :=
  Admin.mkAdminState "correct horse battery staple" l [] [] [].

Definition admin : Admin.HTTPBasicCredentials :=
  Admin.mkCredentials "admin" "correct horse battery staple".

Definition _handle_publish_request :=
  Admin._handle_publish_request Library (list string) nat add_script generate
    generate "job-0" 0.

Definition _get_publish_job :=
  Admin._get_publish_job Library (list string) nat get_compute_batch.

Definition _handle_precalc_request :=
  Admin._handle_precalc_request Library (list string) nat get_script_request
    ascii_str_lower.

Definition serve :=
  Admin.serve Library (list string) nat add_script get_script_request
    get_compute_batch generate generate ascii_str_lower "job-0" 0.

(** A cachable script that passes the publication checks. *)
Definition panel : CadScript :=
  make_script "panel" [("width", Box.width); ("color", Box.color)].
End Demo.

(** The receiver after a run of [hash] calls that returned [hs]: a
    request keeps the last value returned in [request.hash]. *)
Definition after_hashes (self : ScriptObject) (hs : list (option string))
  : ScriptObject :=
  match self with
  | PlainScript s => PlainScript s
  | RequestScript r =>
      RequestScript
        (mkCadScriptRequest (base r) (status r)
           (set_req_hash (request r) (last hs (req_hash (request r)))))
  end.

Module Collide.
(** Two scripts and two assignments that differ and read the same once the
    name and the pairs are written one after the other. *)
Definition bo : CadScript := make_script "bo" [].
Definition box : CadScript := make_script "box" [].
Definition bo_params : dict PyVal := [("xw", VInt 1)].
Definition box_params : dict PyVal := [("w", VStr "1")].
End Collide.

(** A script that declares no parameter. *)
Definition plain_script : CadScript := make_script "plain" [].

(** The combination at position [k] of the enumeration, in closed form:
    each parameter takes the value of index [(k / w) mod n] of its domain,
    [n] being the size of that domain and [w] the number of combinations of
    the parameters declared after it. *)
Fixpoint combination_at (ps : list ParamConfig) (k : nat) : list PyVal :=
  match ps with
  | [] => []
  | p :: rest =>
      nth (Nat.modulo (Nat.div k (weight (map domain rest)))
             (List.length (domain p)))
          (domain p) VNone
      :: combination_at rest k
  end.

(** What the iteration yields for a combination: the assignment built from
    it and, in front, the hash of that assignment. *)
Definition yielded (s : CadScript) (c : list PyVal)
  : option string * dict PyVal :=
  (Some (hash_of (name s) (param_values_of s c)), param_values_of s c).

(** * Properties *)

(** ** The digest on known inputs *)

(** Two test vectors of RFC 1321, the second two blocks long. *)
Example md5_abc :
  MD5.digest (str_encode "abc") =
  [144; 1; 80; 152; 60; 210; 79; 176; 214; 150; 63; 125; 40; 225; 127; 114].
Proof. vm_compute. reflexivity. Qed.

Example md5_digits :
  MD5.digest
    (str_encode
       "12345678901234567890123456789012345678901234567890123456789012345678901234567890")
  = [87; 237; 244; 162; 43; 227; 201; 85; 172; 73; 218; 46; 33; 7; 182; 122].
Proof. vm_compute. reflexivity. Qed.

(** [base64.urlsafe_b64encode] of the digest of the empty input, cut to
    eleven characters. *)
Example _hash_empty : _hash "" = "1B2M2Y8AsgT".
Proof. vm_compute. reflexivity. Qed.

(** The enumeration of the script [box]: [color], declared last, alternates
    at every step while [width] advances every second step. *)
Example box_enumeration :
  iterate_possible_model_params_dicts (PlainScript Box.script) =
  Ok ([(Some "71Se-h08QnT", [("width", VInt 1); ("color", VStr "red")]);
       (Some "GK6QzqT3xHm", [("width", VInt 1); ("color", VStr "blue")]);
       (Some "E3GpAgWqMeS", [("width", VInt 2); ("color", VStr "red")]);
       (Some "_hn1mO5X38y", [("width", VInt 2); ("color", VStr "blue")]);
       (Some "UfZZo0ohfhg", [("width", VInt 3); ("color", VStr "red")]);
       (Some "6oJEZGM2Vbr", [("width", VInt 3); ("color", VStr "blue")])],
      PlainScript Box.script).
Proof. vm_compute. reflexivity. Qed.

Example box_num_variants : get_num_variants Box.script None = Some 6.
Proof. reflexivity. Qed.

(** ** Facts about dictionaries *)

Section DictFacts.
Context {V : Type}.
Implicit Types (d l : dict V) (k : string) (v : V).

Lemma dict_get_set d k v k' :
  dict_get (dict_set d k v) k' =
  if String.eqb k' k then Some v else dict_get d k'.
Proof.
  induction d as [|[k0 v0] d IH]; simpl.
  - reflexivity.
  - destruct (String.eqb k k0) eqn:E; simpl.
    + apply String.eqb_eq in E; subst k0.
      destruct (String.eqb k' k); reflexivity.
    + destruct (String.eqb k' k0) eqn:E'.
      * apply String.eqb_eq in E'; subst k0.
        rewrite String.eqb_sym, E. reflexivity.
      * exact IH.
Qed.

Lemma dict_get_None d k : dict_get d k = None <-> ~ In k (dict_keys d).
Proof.
  induction d as [|[k0 v0] d IH]; simpl.
  - tauto.
  - destruct (String.eqb k k0) eqn:E.
    + apply String.eqb_eq in E. split; [discriminate | intros H; exfalso; auto].
    + apply String.eqb_neq in E. rewrite IH. split.
      * intros H [H1 | H1]; [congruence | auto].
      * intros H H1; auto.
Qed.

Lemma dict_get_In d k v :
  NoDup (dict_keys d) -> (In (k, v) d <-> dict_get d k = Some v).
Proof.
  induction d as [|[k0 v0] d IH]; simpl; intros ND.
  - split; [tauto | discriminate].
  - inversion ND as [|? ? Hnin ND']; subst.
    destruct (String.eqb k k0) eqn:E.
    + apply String.eqb_eq in E; subst k0. split.
      * intros [H | H]; [congruence |].
        exfalso; apply Hnin. change k with (fst (k, v)). now apply in_map.
      * intros H; left; congruence.
    + apply String.eqb_neq in E. rewrite <- (IH ND'). split.
      * intros [H | H]; [congruence | exact H].
      * auto.
Qed.

Lemma dict_set_fresh d k v :
  ~ In k (dict_keys d) -> dict_set d k v = (d ++ [(k, v)])%list.
Proof.
  induction d as [|[k0 v0] d IH]; simpl; intros H.
  - reflexivity.
  - destruct (String.eqb k k0) eqn:E.
    + apply String.eqb_eq in E. exfalso; auto.
    + f_equal. apply IH. auto.
Qed.

Lemma dict_update_fresh l : forall d,
  NoDup (dict_keys d ++ dict_keys l) -> dict_update d l = (d ++ l)%list.
Proof.
  induction l as [|[k v] l IH]; simpl; intros d ND.
  - now rewrite app_nil_r.
  - unfold dict_update in *; simpl.
    assert (Hk : ~ In k (dict_keys d)).
    { apply NoDup_remove_2 in ND. intros H; apply ND, in_or_app; auto. }
    rewrite (dict_set_fresh d k v Hk), IH.
    + now rewrite <- app_assoc.
    + unfold dict_keys in *. rewrite map_app; simpl. now rewrite <- app_assoc.
Qed.

(** Re-inserting the items of a dictionary, in its own order, into an empty
    one gives the same dictionary. *)
Lemma dict_of_pairs_id d : NoDup (dict_keys d) -> dict_of_pairs d = d.
Proof. intros ND. unfold dict_of_pairs. now rewrite dict_update_fresh. Qed.

Lemma dict_keys_set d k v :
  dict_keys (dict_set d k v) =
  if dict_mem d k then dict_keys d else (dict_keys d ++ [k])%list.
Proof.
  unfold dict_mem.
  induction d as [|[k0 v0] d IH]; simpl.
  - reflexivity.
  - destruct (String.eqb k k0) eqn:E; simpl.
    + reflexivity.
    + rewrite IH. now destruct (dict_get d k).
Qed.

Lemma dict_set_NoDup d k v :
  NoDup (dict_keys d) -> NoDup (dict_keys (dict_set d k v)).
Proof.
  intros ND. rewrite dict_keys_set. unfold dict_mem.
  destruct (dict_get d k) eqn:E; [exact ND |].
  apply dict_get_None in E.
  apply NoDup_app; [exact ND | repeat constructor; simpl; tauto |].
  intros x Hx [<- | []]. tauto.
Qed.

Lemma dict_update_NoDup l : forall d,
  NoDup (dict_keys d) -> NoDup (dict_keys (dict_update d l)).
Proof.
  unfold dict_update.
  induction l as [|[k v] l IH]; simpl; intros d ND; [exact ND |].
  apply IH, dict_set_NoDup, ND.
Qed.

Lemma dict_get_app d1 d2 k :
  dict_get (d1 ++ d2)%list k =
  match dict_get d1 k with Some v => Some v | None => dict_get d2 k end.
Proof.
  induction d1 as [|[k0 v0] d1 IH]; simpl; [reflexivity |].
  now destruct (String.eqb k k0).
Qed.

(** After a run of insertions the last one for a key wins. *)
Lemma dict_get_update l : forall d k,
  dict_get (dict_update d l) k =
  match dict_get (rev l) k with
  | Some v => Some v
  | None => dict_get d k
  end.
Proof.
  unfold dict_update.
  induction l as [|[k0 v0] l IH]; simpl; intros d k; [reflexivity |].
  rewrite IH, dict_get_app, dict_get_set; simpl.
  destruct (dict_get (rev l) k); [reflexivity |].
  now destruct (String.eqb k k0).
Qed.

End DictFacts.

(** ** Identity *)

Lemma append_assoc (a b c : string) : (a ++ b) ++ c = a ++ (b ++ c).
Proof. induction a; simpl; [reflexivity | now f_equal]. Qed.

Lemma append_nil_r (a : string) : a ++ "" = a.
Proof. induction a; simpl; [reflexivity | now f_equal]. Qed.

Lemma params_str_fold (p : dict PyVal) : forall acc,
  fold_left (fun acc kv => acc ++ fst kv ++ "=" ++ py_format (snd kv) ++ "&")
    p acc = acc ++ String.concat "" (map segment p).
Proof.
  induction p as [|kv p IH]; simpl; intros acc.
  - now rewrite append_nil_r.
  - rewrite IH, append_assoc. f_equal.
    destruct p; simpl.
    + now rewrite !append_nil_r.
    + reflexivity.
Qed.

(** The text hashed after the script name: one [name=value&] per item, in
    the order the dictionary iterates them. *)
Lemma params_str_concat (p : dict PyVal) :
  params_str p = String.concat "" (map segment p).
Proof.
  destruct p as [|kv p]; [reflexivity |].
  unfold params_str. now rewrite params_str_fold.
Qed.

Ltac nodup_strings :=
  repeat constructor; simpl; intuition discriminate.

Lemma box_A_NoDup : NoDup (dict_keys box_A).
Proof. nodup_strings. Qed.

Lemma box_B_NoDup : NoDup (dict_keys box_B).
Proof. nodup_strings. Qed.

(** C1, as stated, fails: the two assignments of the specification's
    scenario, [{width: 1, color: "red"}] and [{color: "red", width: 1}], are
    equal as sets of pairs and [hash] returns ["71Se-h08QnT"] for the first
    and ["Me94u7Pk4eN"] for the second. *)
Lemma hash_not_order_independent :
  ~ (forall (self : ScriptObject) (A B : dict PyVal),
        NoDup (dict_keys A) -> NoDup (dict_keys B) -> Permutation A B ->
        fst (hash self (Some A)) = fst (hash self (Some B))).
Proof.
  intros H.
  specialize (H (PlainScript Box.script) box_A box_B
                box_A_NoDup box_B_NoDup (perm_swap _ _ _)).
  vm_compute in H. discriminate H.
Qed.

(** C1, amended: the identity is determined by the script name and the
    pairs of the assignment in insertion order.  An assignment [B] made by
    inserting the pairs of [A] one by one in the order [A] iterates them has
    the hash of [A], and that hash is the digest of the name followed by
    [name=value&] for each pair in that order. *)
Theorem hash_same_insertion_order (self : ScriptObject) (A B : dict PyVal) :
  NoDup (dict_keys A) ->
  B = dict_of_pairs A ->
  fst (hash self (Some A)) = fst (hash self (Some B)) /\
  fst (hash self (Some A)) =
    Some (_hash (name (script_of self) ++ String.concat "" (map segment A))).
Proof.
  intros ND ->. rewrite (dict_of_pairs_id A ND). split; [reflexivity |].
  unfold hash, hash_of. rewrite params_str_concat.
  destruct self; reflexivity.
Qed.

Lemma hash_same_insertion_order_witness :
  fst (hash (PlainScript Box.script) (Some box_A)) =
    fst (hash (PlainScript Box.script) (Some (dict_of_pairs box_A))) /\
  fst (hash (PlainScript Box.script) (Some box_A)) =
    Some (_hash (name Box.script ++ String.concat "" (map segment box_A))).
Proof.
  apply (hash_same_insertion_order (PlainScript Box.script) box_A
           (dict_of_pairs box_A)).
  - exact box_A_NoDup.
  - reflexivity.
Defined.

(** C6, as stated, fails: on a [CadScriptRequest] whose [request.hash] is
    [None], [hash(params)] leaves [request.hash] set to the value it
    returns. *)
Lemma hash_not_pure :
  ~ (forall (self : ScriptObject) (params : option (dict PyVal)),
        snd (hash self params) = self).
Proof.
  intros H.
  specialize (H (RequestScript Box.script_request) (Some box_A)).
  vm_compute in H. discriminate H.
Qed.

(** C6, amended: [hash(params)] leaves every field of the script unchanged
    and every field of the attached request other than [request.hash]
    unchanged; on a script with a request it stores the value it returns in
    [request.hash], and a script without the attribute is left as it was. *)
Theorem hash_frame (self : ScriptObject) (params : option (dict PyVal)) :
  script_of (snd (hash self params)) = script_of self /\
  match self, snd (hash self params) with
  | PlainScript s, PlainScript s' => s' = s
  | RequestScript r, RequestScript r' =>
      status r' = status r /\
      req_hash (request r') = fst (hash self params) /\
      req_created_at (request r') = req_created_at (request r) /\
      req_params (request r') = req_params (request r) /\
      req_format (request r') = req_format (request r) /\
      req_output (request r') = req_output (request r) /\
      req_quality (request r') = req_quality (request r) /\
      req_batch_id (request r') = req_batch_id (request r) /\
      req_batch_on_end_action (request r') = req_batch_on_end_action (request r) /\
      req_settings (request r') = req_settings (request r)
  | _, _ => False
  end.
Proof.
  destruct self as [s | r]; destruct params as [p |]; unfold hash;
    cbn [snd fst script_of base status request set_req_hash req_hash
         req_created_at req_params req_format req_output req_quality
         req_batch_id req_batch_on_end_action req_settings];
    repeat split; reflexivity.
Qed.

(** ** The query string of a request *)

(** C10: with a non-empty [params], [get_param_query_string] raises
    [AttributeError] at the first item (the loop assigns to the attribute
    [append] of a list) and returns nothing; with an empty [params] it
    returns [?format=...&output=...]. *)
Theorem get_param_query_string_raises (self : ModelRequest) :
  get_param_query_string self =
  match req_params self with
  | [] =>
      Ok ("?format=" ++ req_format self ++ "&output="
            ++ str_or (req_output self) "model")
  | _ :: _ => Raise AttributeError
  end.
Proof.
  unfold get_param_query_string.
  destruct (req_params self) as [|[k v] rest]; simpl.
  - now rewrite append_nil_r.
  - reflexivity.
Qed.

(** ** Variants: counting *)

Lemma num_variants_loop_spec (ps : list ParamConfig) : forall acc,
  num_variants_loop ps acc =
  if existsb unbounded ps then None
  else Some (acc * Zproduct (map domain_size ps)).
Proof.
  unfold Zproduct.
  induction ps as [|p ps IH]; intros acc;
    cbn [num_variants_loop existsb map fold_right].
  - f_equal. lia.
  - unfold unbounded at 1, domain_size at 1.
    destruct (param_enabled p); cbn [andb orb].
    + destruct (param_values p) as [v |]; cbn [orb]; [| reflexivity].
      rewrite IH. destruct (existsb unbounded ps); [reflexivity |].
      f_equal. lia.
    + rewrite IH. destruct (existsb unbounded ps); [reflexivity |].
      f_equal. lia.
Qed.

Lemma domain_size_length (p : ParamConfig) :
  unbounded p = false -> domain_size p = Z.of_nat (List.length (domain p)).
Proof.
  unfold unbounded, domain_size, domain.
  destruct (param_enabled p); [| reflexivity].
  destruct (param_values p); simpl; [reflexivity | discriminate].
Qed.

Lemma length_product {A : Type} (pools : list (list A)) :
  List.length (product pools) = nat_product (map (@List.length A) pools).
Proof.
  induction pools as [|pool rest IH]; simpl; [reflexivity |].
  rewrite <- IH. clear IH.
  induction pool as [|x pool IHp]; simpl; [reflexivity |].
  now rewrite length_app, length_map, IHp.
Qed.

Lemma Zproduct_domain_sizes (ps : list ParamConfig) :
  existsb unbounded ps = false ->
  Zproduct (map domain_size ps) =
  Z.of_nat (nat_product (map (@List.length PyVal) (map domain ps))).
Proof.
  induction ps as [|p ps IH]; simpl; intros H; [reflexivity |].
  apply orb_false_iff in H as [Hp Hps].
  rewrite Nat2Z.inj_mul, <- (IH Hps), (domain_size_length p Hp). reflexivity.
Qed.

Lemma existsb_unbounded_false (ps : list ParamConfig) :
  (forall p, In p ps -> param_enabled p = true -> param_values p <> None) ->
  existsb unbounded ps = false.
Proof.
  intros H. apply not_true_is_false. intros E.
  apply existsb_exists in E as (p & Hin & Hp).
  unfold unbounded in Hp. apply andb_true_iff in Hp as [He Hv].
  specialize (H p Hin He). destruct (param_values p); [discriminate | auto].
Qed.

Lemma iter_all_domains (ps : list ParamConfig) :
  existsb unbounded ps = false ->
  iter_all
    (map (fun param =>
            if param_enabled param then param_values param
            else Some [param_default param]) ps)
  = Ok (map domain ps).
Proof.
  induction ps as [|p ps IH]; simpl; intros H; [reflexivity |].
  apply orb_false_iff in H as [Hp Hps].
  unfold unbounded in Hp. unfold domain at 1.
  destruct (param_enabled p); simpl in *.
  - destruct (param_values p); [| discriminate].
    rewrite (IH Hps). reflexivity.
  - rewrite (IH Hps). reflexivity.
Qed.

Lemma iter_all_unbounded (ps : list ParamConfig) :
  existsb unbounded ps = true ->
  iter_all
    (map (fun param =>
            if param_enabled param then param_values param
            else Some [param_default param]) ps)
  = Raise TypeError.
Proof.
  induction ps as [|p ps IH]; simpl; intros H; [discriminate |].
  unfold unbounded in H at 1.
  destruct (param_enabled p); simpl in *.
  - destruct (param_values p); simpl in *; [| reflexivity].
    rewrite (IH H). reflexivity.
  - rewrite (IH H). reflexivity.
Qed.

Lemma yield_each_script (combinations : list (list PyVal)) : forall self,
  script_of (snd (yield_each self combinations)) = script_of self.
Proof.
  induction combinations as [|c rest IH]; intros self; [reflexivity |].
  cbn [yield_each].
  destruct (hash self (Some (dict_of_pairs (param_values_of (script_of self) c))))
    as [h self1] eqn:Eh.
  specialize (IH self1).
  destruct (yield_each self1 rest) as [items self2]. cbn [snd] in *.
  rewrite IH.
  assert (E : self1 = snd (hash self (Some (dict_of_pairs
                 (param_values_of (script_of self) c))))) by now rewrite Eh.
  rewrite E. unfold hash. destruct self; reflexivity.
Qed.

(** The dictionaries yielded are those of the combinations, in order. *)
Lemma yield_each_items (combinations : list (list PyVal)) : forall self,
  map snd (fst (yield_each self combinations)) =
  map (param_values_of (script_of self)) combinations.
Proof.
  induction combinations as [|c rest IH]; intros self; [reflexivity |].
  cbn [yield_each].
  destruct (hash self (Some (dict_of_pairs (param_values_of (script_of self) c))))
    as [h self1] eqn:Eh.
  specialize (IH self1).
  assert (E : script_of self1 = script_of self).
  { replace self1 with (snd (hash self (Some (dict_of_pairs
                 (param_values_of (script_of self) c))))) by now rewrite Eh.
    unfold hash. destruct self; reflexivity. }
  destruct (yield_each self1 rest) as [items self2]. cbn [fst snd map] in *.
  now rewrite IH, E.
Qed.

Lemma yield_each_length (combinations : list (list PyVal)) (self : ScriptObject) :
  List.length (fst (yield_each self combinations)) = List.length combinations.
Proof.
  rewrite <- (length_map snd), yield_each_items. apply length_map.
Qed.

(** C3: for a cachable script whose enabled parameters all have a finite
    [values()], the iteration runs to its end and [get_num_variants(None)]
    is the number of items it yields. *)
Theorem num_variants_counts_iteration (self : ScriptObject) :
  is_cachable (script_of self) = true ->
  (forall p, In p (dict_values (params (script_of self))) ->
             param_enabled p = true -> param_values p <> None) ->
  exists items self',
    iterate_possible_model_params_dicts self = Ok (items, self') /\
    get_num_variants (script_of self) None =
      Some (Z.of_nat (List.length items)).
Proof.
  intros _ Hfin.
  pose proof (existsb_unbounded_false _ Hfin) as Hb.
  unfold iterate_possible_model_params_dicts, all_values_per_parameter.
  rewrite (iter_all_domains _ Hb). cbn [bind].
  set (ps := dict_values (params (script_of self))) in *.
  destruct (yield_each self (product (map domain ps))) as [items self'] eqn:E.
  exists items, self'. split; [reflexivity |].
  unfold get_num_variants, selected_params. fold ps.
  rewrite num_variants_loop_spec, Hb, (Zproduct_domain_sizes _ Hb).
  rewrite <- length_product, <- (yield_each_length _ self), E. cbn [fst].
  f_equal. lia.
Qed.

Lemma num_variants_counts_iteration_witness :
  exists items self',
    iterate_possible_model_params_dicts (PlainScript Box.script) =
      Ok (items, self') /\
    get_num_variants Box.script None = Some (Z.of_nat (List.length items)).
Proof.
  apply (num_variants_counts_iteration (PlainScript Box.script)).
  - reflexivity.
  - simpl. intros p [<- | [<- | []]] _; discriminate.
Defined.

(** ** Variants: selections *)

Lemma existsb_Permutation {A : Type} (f : A -> bool) (l l' : list A) :
  Permutation l l' -> existsb f l = existsb f l'.
Proof.
  induction 1; simpl.
  - reflexivity.
  - now rewrite IHPermutation.
  - now rewrite !orb_assoc, (orb_comm (f y)).
  - congruence.
Qed.

Lemma Zproduct_Permutation (l l' : list Z) :
  Permutation l l' -> Zproduct l = Zproduct l'.
Proof.
  unfold Zproduct. induction 1; cbn [fold_right]; lia.
Qed.

Lemma variant_count_Permutation (ps ps' : list ParamConfig) :
  Permutation ps ps' -> variant_count ps = variant_count ps'.
Proof.
  intros H. unfold variant_count.
  rewrite (existsb_Permutation _ _ _ H).
  now rewrite (Zproduct_Permutation _ _ (Permutation_map domain_size H)).
Qed.

Lemma dict_get_Some_In {V : Type} (d : dict V) k v :
  dict_get d k = Some v -> In (k, v) d.
Proof.
  induction d as [|[k0 v0] d IH]; simpl; [discriminate |].
  destruct (String.eqb k k0) eqn:E.
  - apply String.eqb_eq in E. intros [= ->]. left. now subst.
  - auto.
Qed.

Lemma existsb_eqb_In (k : string) (names : list string) :
  existsb (String.eqb k) names = true <-> In k names.
Proof.
  rewrite existsb_exists. split.
  - intros (x & Hx & E). apply String.eqb_eq in E. now subst.
  - intros H. exists k. split; [exact H | apply String.eqb_refl].
Qed.

Section Selection.
Variable ps : dict ParamConfig.
Hypothesis ps_keys : NoDup (dict_keys ps).

Lemma In_picked names k v :
  In (k, v) (flat_map (pick ps) names) <-> In k names /\ dict_get ps k = Some v.
Proof.
  rewrite in_flat_map. unfold pick. split.
  - intros (pn & Hpn & Hin).
    destruct (dict_get ps pn) eqn:E; simpl in Hin; [| tauto].
    destruct Hin as [[= <- <-] | []]. auto.
  - intros [Hk E]. exists k. split; [exact Hk |].
    rewrite E. now left.
Qed.

Lemma dict_get_select names k v :
  dict_get (select_params ps names) k = Some v <->
  In k names /\ dict_get ps k = Some v.
Proof.
  unfold select_params, dict_of_pairs.
  rewrite dict_get_update. cbn [dict_get].
  split.
  - intros H.
    destruct (dict_get (rev (flat_map (pick ps) names)) k) as [v' |] eqn:E;
      [| discriminate].
    injection H as ->.
    apply dict_get_Some_In, in_rev in E. now apply In_picked.
  - intros H. pose proof H as H'.
    apply In_picked, in_rev in H'.
    destruct (dict_get (rev (flat_map (pick ps) names)) k) as [v' |] eqn:E.
    + apply dict_get_Some_In, in_rev, In_picked in E. f_equal.
      destruct E as [_ E], H as [_ H]. congruence.
    + exfalso. apply dict_get_None in E. apply E.
      change k with (fst (k, v)). now apply in_map.
Qed.

Lemma NoDup_keys_items {V : Type} (d : dict V) :
  NoDup (dict_keys d) -> NoDup d.
Proof. apply NoDup_map_inv. Qed.

(** The dictionary built from the selection holds the parameters whose
    name is selected, each once. *)
Lemma select_params_Permutation names :
  Permutation (select_params ps names)
    (filter (fun kv => existsb (String.eqb (fst kv)) names) ps).
Proof.
  assert (Hsel : NoDup (dict_keys (select_params ps names))).
  { apply (dict_update_NoDup _ []). constructor. }
  apply NoDup_Permutation.
  - now apply NoDup_keys_items.
  - apply NoDup_filter. now apply NoDup_keys_items.
  - intros [k v]. rewrite (dict_get_In _ k v Hsel), dict_get_select.
    rewrite filter_In, (dict_get_In _ k v ps_keys). cbn [fst].
    rewrite existsb_eqb_In. tauto.
Qed.
End Selection.

(** C4: [get_num_variants] is the product of the domain sizes of the
    selected parameters (of all parameters when no selection is given), a
    disabled parameter counting 1, and is [None] when a selected enabled
    parameter has [values()] equal to [None]. *)
Theorem get_num_variants_product (s : CadScript)
  (only_params : option (list string)) :
  NoDup (dict_keys (params s)) ->
  get_num_variants s only_params = variant_count (chosen s only_params).
Proof.
  intros ND. unfold get_num_variants.
  rewrite num_variants_loop_spec.
  transitivity (variant_count (dict_values (selected_params s only_params))).
  { unfold variant_count.
    destruct (existsb unbounded _); [reflexivity |]. f_equal. lia. }
  destruct only_params as [names |]; [| reflexivity].
  apply variant_count_Permutation. unfold dict_values.
  apply Permutation_map, select_params_Permutation, ND.
Qed.

Lemma get_num_variants_product_witness :
  get_num_variants Box.script (Some ["color"; "depth"; "color"]) =
  variant_count (chosen Box.script (Some ["color"; "depth"; "color"])).
Proof.
  apply (get_num_variants_product Box.script).
  nodup_strings.
Defined.

(** ** Variants: cachability *)

Lemma is_cachable_false (ps : list ParamConfig) :
  is_cachable_loop ps = false <->
  exists p, In p ps /\ param_iterable p = false.
Proof.
  induction ps as [|p ps IH]; simpl.
  - split; [discriminate | intros (p & [] & _)].
  - destruct (param_iterable p) eqn:E; simpl.
    + rewrite IH. split.
      * intros (q & Hq & Hi). exists q. auto.
      * intros (q & [<- | Hq] & Hi); [congruence | exists q; auto].
    + split; [| reflexivity]. intros _. exists p. auto.
Qed.

(** C7, as stated, fails: a script whose only parameter is not iterable and
    disabled is not cachable, and [get_num_variants()] returns 1 for it,
    the disabled parameter counting one value.  The parameter has
    [iterable] false exactly when [values()] is [None]. *)
Lemma not_cachable_with_finite_count :
  ~ (forall s : CadScript,
        (forall p, In p (dict_values (params s)) ->
           (param_iterable p = false <-> param_values p = None)) ->
        is_cachable s = false -> get_num_variants s None = None).
Proof.
  intros H. specialize (H Label.script).
  assert (E : get_num_variants Label.script None = Some 1) by reflexivity.
  rewrite H in E; [discriminate | | reflexivity].
  simpl. intros p [<- | []]. simpl. tauto.
Qed.

(** C7, amended: in a script whose parameters have [iterable] false
    exactly when [values()] is [None], if [is_cachable()] is false and some
    parameter that is not iterable is enabled, then [get_num_variants()] is
    [None]. *)
Theorem not_cachable_unbounded (s : CadScript) :
  (forall p, In p (dict_values (params s)) ->
     (param_iterable p = false <-> param_values p = None)) ->
  (exists p, In p (dict_values (params s)) /\
             param_iterable p = false /\ param_enabled p = true) ->
  is_cachable s = false ->
  get_num_variants s None = None.
Proof.
  intros Hwf (p & Hin & Hi & He) _.
  apply (Hwf p Hin) in Hi.
  unfold get_num_variants, selected_params.
  rewrite num_variants_loop_spec.
  replace (existsb unbounded (dict_values (params s))) with true; [reflexivity |].
  symmetry. apply existsb_exists. exists p. split; [exact Hin |].
  unfold unbounded. now rewrite He, Hi.
Qed.

Lemma not_cachable_unbounded_witness :
  get_num_variants Mixed.script None = None.
Proof.
  apply (not_cachable_unbounded Mixed.script).
  - simpl. intros p [<- | [<- | []]]; simpl; tauto.
  - exists Free.text. simpl. auto.
  - reflexivity.
Defined.

(** ** Variants: order of the enumeration *)

Section FlatMap.
Local Open Scope nat_scope.

Lemma nth_flat_map_uniform {A B : Type} (f : B -> list A) (R : nat)
  (l : list B) (db : B) (d : A) :
  (forall x, List.length (f x) = R) ->
  forall k, k < List.length l * R ->
  nth k (flat_map f l) d = nth (k mod R) (f (nth (k / R) l db)) d.
Proof.
  intros HR. induction l as [|b l IH]; intros k Hk; simpl in Hk; [lia |].
  assert (R <> 0) by (intros ->; lia).
  cbn [flat_map].
  destruct (Nat.lt_ge_cases k R) as [Hlt | Hge].
  - rewrite app_nth1 by (now rewrite HR).
    now rewrite Nat.mod_small, Nat.div_small.
  - rewrite app_nth2 by (rewrite HR; lia).
    rewrite HR, IH by lia.
    replace k with ((k - R) + 1 * R) at 3 4 by lia.
    rewrite Nat.Div0.mod_add, Nat.div_add by assumption.
    replace (nth ((k - R) / R + 1) (b :: l) db) with (nth ((k - R) / R) l db);
      [reflexivity |].
    now rewrite Nat.add_1_r.
Qed.
End FlatMap.

Section ProductOrder.
Local Open Scope nat_scope.
Context {A : Type}.

Lemma length_product_weight (pools : list (list A)) :
  List.length (product pools) = weight pools.
Proof. apply length_product. Qed.

Lemma product_In_length (pools : list (list A)) (c : list A) :
  In c (product pools) -> List.length c = List.length pools.
Proof.
  revert c. induction pools as [|pool rest IH]; intros c; simpl.
  - intros [<- | []]. reflexivity.
  - rewrite in_flat_map. intros (x & _ & Hc).
    apply in_map_iff in Hc as (c' & <- & Hc'). simpl. f_equal. auto.
Qed.

(** The combination at position [k] starts with the value of the first
    pool at [k / weight rest]; its tail is the combination of the other
    pools at position [k mod weight rest]. *)
Lemma product_cons_nth (pool : list A) (rest : list (list A)) (d : A) k :
  k < List.length pool * weight rest ->
  nth k (product (pool :: rest)) [] =
  nth (k / weight rest) pool d :: nth (k mod weight rest) (product rest) [].
Proof.
  intros Hk. cbn [product].
  assert (weight rest <> 0) by (intros E; rewrite E in Hk; lia).
  rewrite (nth_flat_map_uniform _ (weight rest) pool d []); [| | exact Hk].
  - rewrite (nth_indep _ [] (nth (k / weight rest) pool d :: [])).
    + apply (map_nth (cons (nth (k / weight rest) pool d))).
    + rewrite length_map, length_product_weight.
      now apply Nat.mod_upper_bound.
  - intros x. now rewrite length_map, length_product_weight.
Qed.

Lemma weight_split (pools : list (list A)) j :
  j < List.length pools ->
  weight pools =
  weight (firstn j pools) *
  (List.length (nth j pools []) * weight (skipn (S j) pools)).
Proof.
  unfold weight, nat_product.
  revert j. induction pools as [|pool rest IH]; intros j Hj; simpl in Hj;
    [lia |].
  destruct j as [|j].
  - cbn [firstn skipn nth map fold_right]. lia.
  - cbn [firstn skipn nth map fold_right].
    rewrite (IH j) by lia. cbn [skipn]. lia.
Qed.

Lemma digit_mod k c s w :
  c * (s * w) <> 0 ->
  ((k mod (c * (s * w))) / w) mod s = (k / w) mod s.
Proof.
  intros H.
  assert (Hw : w <> 0) by (intros ->; lia).
  assert (Hdigit : forall x, (x / w) mod s = (x mod (w * s)) / w).
  { intros x. rewrite Nat.Div0.mod_mul_r.
    rewrite (Nat.mul_comm w), Nat.div_add by exact Hw.
    rewrite (Nat.div_small (x mod w) w) by (now apply Nat.mod_upper_bound).
    reflexivity. }
  rewrite !Hdigit. f_equal.
  replace (c * (s * w)) with ((w * s) * c) by lia.
  rewrite (Nat.Div0.mod_mul_r k (w * s) c).
  rewrite (Nat.mul_comm (w * s) (_ mod c)), Nat.Div0.mod_add.
  apply Nat.Div0.mod_mod.
Qed.

(** Position [k] of the product written in the mixed radix of the pool
    sizes: the pool at index [j] contributes its value of index
    [(k / weight of the later pools) mod its size]. *)
Lemma product_nth (d : A) (pools : list (list A)) :
  forall k j,
    k < weight pools -> j < List.length pools ->
    nth j (nth k (product pools) []) d =
    nth ((k / weight (skipn (S j) pools)) mod List.length (nth j pools []))
        (nth j pools []) d.
Proof.
  induction pools as [|pool rest IH]; intros k j Hk Hj; simpl in Hj; [lia |].
  assert (Hk' : k < List.length pool * weight rest) by exact Hk.
  assert (HR : weight rest <> 0) by (intros E; rewrite E in Hk'; lia).
  rewrite (product_cons_nth pool rest d k Hk').
  destruct j as [|j].
  - cbn [nth skipn]. rewrite Nat.mod_small; [reflexivity |].
    apply Nat.Div0.div_lt_upper_bound. lia.
  - change (skipn (S (S j)) (pool :: rest)) with (skipn (S j) rest).
    cbn [nth]. rewrite IH by (try apply Nat.mod_upper_bound; lia).
    f_equal.
    rewrite (weight_split rest j) by lia.
    apply digit_mod.
    rewrite <- (weight_split rest j) by lia. exact HR.
Qed.

End ProductOrder.

Lemma names_values_keys (ps : list ParamConfig) : forall c,
  List.length c = List.length ps ->
  dict_keys (names_values ps c) = map param_name ps.
Proof.
  unfold names_values, dict_keys.
  induction ps as [|p ps IH]; intros [|v c] H; simpl in *;
    try discriminate; [reflexivity |].
  f_equal. apply IH. now injection H.
Qed.

Lemma names_values_get (ps : list ParamConfig) : forall c j p,
  NoDup (map param_name ps) ->
  List.length c = List.length ps ->
  nth_error ps j = Some p ->
  dict_get (names_values ps c) (param_name p) = nth_error c j.
Proof.
  unfold names_values.
  induction ps as [|p0 ps IH]; intros [|v c] j p ND H Hj; simpl in *;
    try discriminate.
  - destruct j; discriminate.
  - inversion ND as [|? ? Hnin ND']; subst.
    destruct j as [|j]; simpl in *.
    + injection Hj as ->. now rewrite String.eqb_refl.
    + destruct (String.eqb (param_name p) (param_name p0)) eqn:E.
      * apply String.eqb_eq in E. exfalso. apply Hnin. rewrite <- E.
        apply in_map. eapply nth_error_In. exact Hj.
      * apply IH; [exact ND' | now injection H | exact Hj].
Qed.

Lemma param_values_of_combination (s : CadScript) (c : list PyVal) :
  NoDup (map param_name (dict_values (params s))) ->
  List.length c = List.length (dict_values (params s)) ->
  param_values_of s c = names_values (dict_values (params s)) c.
Proof.
  intros ND H. unfold param_values_of. fold (names_values (dict_values (params s)) c).
  apply dict_of_pairs_id. now rewrite names_values_keys.
Qed.

Lemma weight_positive_pool {A : Type} (pools : list (list A)) j :
  (j < List.length pools)%nat -> weight pools <> 0%nat ->
  List.length (nth j pools []) <> 0%nat.
Proof.
  intros Hj Hw E. apply Hw. rewrite (weight_split pools j Hj), E. lia.
Qed.

Section CartesianOrder.
Local Open Scope nat_scope.

Lemma combination_at_length (ps : list ParamConfig) (k : nat) :
  List.length (combination_at ps k) = List.length ps.
Proof. induction ps as [|p ps IH]; simpl; [reflexivity | now rewrite IH]. Qed.

Lemma combination_at_nth (ps : list ParamConfig) (k : nat) : forall j p,
  nth_error ps j = Some p ->
  nth j (combination_at ps k) VNone =
  nth ((k / weight_after j ps) mod List.length (domain p)) (domain p) VNone.
Proof.
  induction ps as [|p0 ps IH]; intros j p Hj; [destruct j; discriminate |].
  destruct j as [|j].
  - injection Hj as ->. reflexivity.
  - cbn [combination_at nth]. rewrite (IH j p Hj). reflexivity.
Qed.

Lemma combination_at_nth_error (ps : list ParamConfig) (k j : nat)
  (p : ParamConfig) :
  nth_error ps j = Some p ->
  List.length (domain p) <> 0 ->
  nth_error (combination_at ps k) j =
  nth_error (domain p)
    ((k / weight_after j ps) mod List.length (domain p)).
Proof.
  intros Hj Hn.
  rewrite (nth_error_nth' (combination_at ps k) VNone)
    by (rewrite combination_at_length; apply nth_error_Some; congruence).
  rewrite (combination_at_nth ps k j p Hj).
  symmetry. apply nth_error_nth'. now apply Nat.mod_upper_bound.
Qed.

(** The closed form is the product at that position. *)
Lemma product_combination_at (ps : list ParamConfig) (k : nat) :
  k < weight (map domain ps) ->
  nth k (product (map domain ps)) [] = combination_at ps k.
Proof.
  intros Hk.
  assert (Hin : In (nth k (product (map domain ps)) []) (product (map domain ps)))
    by (apply nth_In; now rewrite length_product_weight).
  apply product_In_length in Hin. rewrite length_map in Hin.
  apply (nth_ext _ _ VNone VNone).
  - now rewrite combination_at_length.
  - intros j Hj. rewrite Hin in Hj.
    destruct (nth_error ps j) as [p |] eqn:Ep;
      [| apply nth_error_None in Ep; lia].
    rewrite (product_nth VNone (map domain ps) k j Hk)
      by (now rewrite length_map).
    rewrite (combination_at_nth ps k j p Ep), skipn_map.
    replace (nth j (map domain ps) []) with (domain p);
      [reflexivity |].
    symmetry. apply nth_error_nth. now rewrite nth_error_map, Ep.
Qed.

Lemma list_as_positions {A : Type} (l : list A) (d : A) :
  l = map (fun k => nth k l d) (seq 0 (List.length l)).
Proof.
  apply (nth_ext _ _ d d).
  - now rewrite length_map, length_seq.
  - intros n Hn. symmetry.
    rewrite (nth_indep (map (fun k => nth k l d) (seq 0 (List.length l)))
               d ((fun k => nth k l d) 0))
      by (now rewrite length_map, length_seq).
    rewrite (map_nth (fun k => nth k l d) (seq 0 (List.length l)) 0 n).
    now rewrite seq_nth.
Qed.

(** Each item yielded is the assignment of its combination with the hash
    of that assignment. *)
Lemma yield_each_yielded (combinations : list (list PyVal)) : forall self,
  fst (yield_each self combinations) =
  map (yielded (script_of self)) combinations.
Proof.
  induction combinations as [|c rest IH]; intros self; [reflexivity |].
  cbn [yield_each map].
  assert (Hcopy : dict_of_pairs (param_values_of (script_of self) c) =
                  param_values_of (script_of self) c).
  { apply dict_of_pairs_id. apply (dict_update_NoDup _ []). constructor. }
  rewrite Hcopy. unfold hash.
  destruct self as [s | r]; cbn [script_of].
  - specialize (IH (PlainScript s)). cbn [script_of] in IH.
    destruct (yield_each (PlainScript s) rest) as [items self2].
    cbn [fst] in *. now rewrite IH.
  - specialize (IH (RequestScript
      (mkCadScriptRequest (base r) (status r)
         (set_req_hash (request r)
            (Some (hash_of (name (base r)) (param_values_of (base r) c))))))).
    cbn [script_of base] in IH.
    destruct (yield_each _ rest) as [items self2].
    cbn [fst] in *. now rewrite IH.
Qed.

(** C9: the iteration of a cachable script yields, in this order, one item
    for each position [k] of the cartesian product of the domains (a
    disabled parameter having its default for domain): the assignment built
    from the combination in which the parameter declared at position [j]
    takes the value of index [(k / w) mod n] of its domain, [n] being the
    size of that domain and [w] the number of combinations of the parameters
    declared after it.  So the last-declared parameter takes the value of
    index [k mod n] and cycles fastest, and a disabled parameter contributes
    its default to every assignment.  When the parameter names are distinct,
    the assignment lists the names in declaration order and holds under each
    name the value of that parameter in the combination. *)
Theorem iterate_cartesian_order (self : ScriptObject) :
  is_cachable (script_of self) = true ->
  (forall p, In p (dict_values (params (script_of self))) ->
             param_enabled p = true -> param_values p <> None) ->
  exists items self',
    iterate_possible_model_params_dicts self = Ok (items, self') /\
    items =
      map (fun k =>
             yielded (script_of self)
               (combination_at (dict_values (params (script_of self))) k))
          (seq 0 (weight (map domain (dict_values (params (script_of self)))))) /\
    (forall k j p,
        k < weight (map domain (dict_values (params (script_of self)))) ->
        nth_error (dict_values (params (script_of self))) j = Some p ->
        nth_error (combination_at (dict_values (params (script_of self))) k) j =
        nth_error (domain p)
          ((k / weight_after j (dict_values (params (script_of self))))
             mod List.length (domain p))) /\
    (forall k p,
        k < weight (map domain (dict_values (params (script_of self)))) ->
        nth_error (dict_values (params (script_of self)))
          (List.length (dict_values (params (script_of self))) - 1) = Some p ->
        nth_error (combination_at (dict_values (params (script_of self))) k)
          (List.length (dict_values (params (script_of self))) - 1) =
        nth_error (domain p) (k mod List.length (domain p))) /\
    (forall k j p,
        nth_error (dict_values (params (script_of self))) j = Some p ->
        param_enabled p = false ->
        nth_error (combination_at (dict_values (params (script_of self))) k) j =
        Some (param_default p)) /\
    (NoDup (map param_name (dict_values (params (script_of self)))) ->
     forall k j p,
        nth_error (dict_values (params (script_of self))) j = Some p ->
        dict_keys
          (param_values_of (script_of self)
             (combination_at (dict_values (params (script_of self))) k)) =
          map param_name (dict_values (params (script_of self))) /\
        dict_get
          (param_values_of (script_of self)
             (combination_at (dict_values (params (script_of self))) k))
          (param_name p) =
        nth_error (combination_at (dict_values (params (script_of self))) k) j).
Proof.
  intros _ Hfin.
  pose proof (existsb_unbounded_false _ Hfin) as Hb.
  unfold iterate_possible_model_params_dicts, all_values_per_parameter.
  rewrite (iter_all_domains _ Hb). cbn [bind].
  set (s := script_of self) in *.
  set (ps := dict_values (params s)) in *.
  destruct (yield_each self (product (map domain ps))) as [items self'] eqn:E.
  exists items, self'. split; [reflexivity |].
  assert (Hpos : forall k j p, k < weight (map domain ps) ->
            nth_error ps j = Some p -> List.length (domain p) <> 0).
  { intros k j p Hk Hj.
    replace (domain p) with (nth j (map domain ps) []).
    - apply weight_positive_pool; [| lia].
      rewrite length_map. apply nth_error_Some. congruence.
    - apply nth_error_nth. now rewrite nth_error_map, Hj. }
  assert (Hdigit : forall k j p, k < weight (map domain ps) ->
            nth_error ps j = Some p ->
            nth_error (combination_at ps k) j =
            nth_error (domain p)
              ((k / weight_after j ps) mod List.length (domain p))).
  { intros k j p Hk Hj. apply combination_at_nth_error; [exact Hj |].
    exact (Hpos k j p Hk Hj). }
  split; [| split; [exact Hdigit | split; [| split]]].
  - pose proof (yield_each_yielded (product (map domain ps)) self) as Hy.
    rewrite E in Hy. cbn [fst] in Hy. fold s in Hy. rewrite Hy.
    rewrite (list_as_positions (product (map domain ps)) []) at 1.
    rewrite map_map, length_product_weight.
    apply map_ext_in. intros k Hk. apply in_seq in Hk.
    rewrite product_combination_at by lia. reflexivity.
  - intros k p Hk Hp. rewrite (Hdigit k _ p Hk Hp).
    unfold weight_after. rewrite skipn_all2 by lia.
    change (weight (map domain [])) with 1. now rewrite Nat.div_1_r.
  - intros k j p Hj Hdis.
    rewrite (nth_error_nth' (combination_at ps k) VNone)
      by (rewrite combination_at_length; apply nth_error_Some; congruence).
    rewrite (combination_at_nth ps k j p Hj).
    unfold domain. rewrite Hdis. cbn [List.length].
    now rewrite Nat.mod_1_r.
  - intros ND k j p Hj.
    rewrite (param_values_of_combination s _ ND)
      by (fold ps; apply combination_at_length).
    fold ps. split.
    + apply names_values_keys, combination_at_length.
    + apply names_values_get; [exact ND | apply combination_at_length | exact Hj].
Qed.

End CartesianOrder.

Lemma iterate_cartesian_order_witness :
  exists items self',
    iterate_possible_model_params_dicts (PlainScript Box.script) = Ok (items, self') /\
    items =
      map (fun k =>
             yielded Box.script
               (combination_at (dict_values (params Box.script)) k))
          (seq 0 (weight (map domain (dict_values (params Box.script))))) /\
    (forall k j p,
        (k < weight (map domain (dict_values (params Box.script))))%nat ->
        nth_error (dict_values (params Box.script)) j = Some p ->
        nth_error (combination_at (dict_values (params Box.script)) k) j =
        nth_error (domain p)
          (Nat.modulo (Nat.div k (weight_after j (dict_values (params Box.script))))
             (List.length (domain p)))) /\
    (forall k p,
        (k < weight (map domain (dict_values (params Box.script))))%nat ->
        nth_error (dict_values (params Box.script))
          (List.length (dict_values (params Box.script)) - 1) = Some p ->
        nth_error (combination_at (dict_values (params Box.script)) k)
          (List.length (dict_values (params Box.script)) - 1) =
        nth_error (domain p) (Nat.modulo k (List.length (domain p)))) /\
    (forall k j p,
        nth_error (dict_values (params Box.script)) j = Some p ->
        param_enabled p = false ->
        nth_error (combination_at (dict_values (params Box.script)) k) j =
        Some (param_default p)) /\
    (NoDup (map param_name (dict_values (params Box.script))) ->
     forall k j p,
        nth_error (dict_values (params Box.script)) j = Some p ->
        dict_keys
          (param_values_of Box.script
             (combination_at (dict_values (params Box.script)) k)) =
          map param_name (dict_values (params Box.script)) /\
        dict_get
          (param_values_of Box.script
             (combination_at (dict_values (params Box.script)) k))
          (param_name p) =
        nth_error (combination_at (dict_values (params Box.script)) k) j).
Proof.
  apply (iterate_cartesian_order (PlainScript Box.script)).
  - reflexivity.
  - simpl. intros p [<- | [<- | []]] _; discriminate.
Defined.

(** ** Polling a compute job *)

Section JobStatusFacts.
Import JobStatus.
Context {ResultDict CadScriptResult Library : Type}.
Variable AsyncResult_read : string -> nat -> TaskMeta ResultDict.
Variable CadScriptResult_of_dict : ResultDict -> PyResult CadScriptResult.
Variable _apply_single_model_format :
  Library -> CadScriptResult -> CadScriptResult.
Variable get_script_request :
  Library -> string -> string -> string -> option CadScriptRequest.
Variable check_script_model_computing_job :
  Library -> option CadScriptRequest -> string -> option ModelComputeJob.

Let poll :=
  get_model_compute_task ResultDict CadScriptResult Library AsyncResult_read
    CadScriptResult_of_dict _apply_single_model_format get_script_request
    check_script_model_computing_job.

Lemma str_in_pending_failure (st : string) :
  str_in st ["PENDING"; "FAILURE"] = true <->
  st = "PENDING" \/ st = "FAILURE".
Proof.
  unfold str_in. cbn [existsb]. rewrite orb_false_r, orb_true_iff.
  now rewrite !String.eqb_eq.
Qed.


End JobStatusFacts.


(** ** Administration *)

Section AdminFacts.
Import Admin.
Context {Library Api ComputeBatchStats : Type}.
Variable add_script : Library -> CadScript -> bool * Library.
Variable get_script_request :
  Library -> string -> string -> string -> option CadScriptRequest.
Variable get_compute_batch : Library -> string -> option ComputeBatchStats.
Variable _generate_version_endpoint : Api -> CadScript -> Api.
Variable _generate_default_version_endpoint : Api -> CadScript -> Api.
Variable lower : string -> string.
Variable default_job_id : string.
Variable default_now : Z.

Let State := AdminState Library Api ComputeBatchStats.

Let handle_publish :=
  _handle_publish_request Library Api ComputeBatchStats add_script
    _generate_version_endpoint _generate_default_version_endpoint
    default_job_id default_now.

Let route :=
  serve Library Api ComputeBatchStats add_script get_script_request
    get_compute_batch _generate_version_endpoint
    _generate_default_version_endpoint lower default_job_id default_now.

Lemma _check_publish_request_cases (req : PublishRequest) :
  _check_publish_request req = Ok true \/
  _check_publish_request req = Raise (HTTPException 400).
Proof.
  unfold _check_publish_request, get_namespace.
  destruct (script req) as [s |]; [| now right].
  destruct (org s) as [o |]; [| now right].
  destruct (_ && _)%bool; [| now right].
  destruct (str_len o <? SCRIPT_ORG_MIN_CHARS); [now right |].
  destruct (str_len (name s) <? SCRIPT_NAME_MIN_CHARS); [now right |].
  destruct (code s) as [c |]; [| now right].
  destruct (str_len c <? SCRIPT_CODE_MIN_CHARS); [now right | now left].
Qed.


(** The four routes declared with [Depends(self._validate_credentials)]
    answer 401 to wrong credentials and leave the state as it was. *)
Lemma guarded_routes_reject (st : State)
  (credentials : HTTPBasicCredentials) (uuid : string) (r : AdminRequest) :
  _validate_credentials st credentials = Raise (HTTPException 401) ->
  (forall batch_id, r <> GetPrecalcJob batch_id) ->
  route st credentials uuid r = (Raise (HTTPException 401), st).
Proof.
  intros Hbad Hr. subst route. unfold serve.
  destruct r; try (exfalso; eapply Hr; reflexivity);
    unfold publish, get_pub_job, unpublish, precalc,
      depends_validate_credentials;
    now rewrite Hbad.
Qed.

(** C8 at the route [GET /admin/precalc/{batch_id}]: it declares no
    credentials dependency, so a request whose credentials
    [_validate_credentials] rejects with 401 is answered with the batch
    statistics. *)
Theorem precalc_job_skips_credentials (st : State) (uuid batch_id : string) :
  let intruder := mkCredentials "intruder" "guess" in
  _validate_credentials st intruder = Raise (HTTPException 401) /\
  route st intruder uuid (GetPrecalcJob batch_id) =
    (Ok (BatchStatsResponse (get_compute_batch (library st) batch_id)), st).
Proof.
  split; reflexivity.
Qed.

End AdminFacts.


(** * Further properties of the code *)

(** ** The format of an identity *)

Lemma le_bytes_4 (x : Z) :
  MD5.le_bytes 4 x =
  [Z.land x 255; Z.land (Z.shiftr x 8) 255;
   Z.land (Z.shiftr (Z.shiftr x 8) 8) 255;
   Z.land (Z.shiftr (Z.shiftr (Z.shiftr x 8) 8) 8) 255].
Proof. reflexivity. Qed.

Lemma sextet_urlsafe (i : Z) : 0 <= i < 64 -> urlsafe_char (Base64.sextet i) = true.
Proof.
  intros H.
  assert (Hall : forallb (fun n => urlsafe_char (Base64.sextet (Z.of_nat n)))
                   (seq 0 64) = true) by (vm_compute; reflexivity).
  rewrite forallb_forall in Hall.
  rewrite <- (Z2Nat.id i) by lia. apply Hall, in_seq. lia.
Qed.

Lemma land_63_range (x : Z) : 0 <= Z.land x 63 < 64.
Proof.
  change 63 with (Z.ones 6). rewrite Z.land_ones by lia.
  apply Z.mod_pos_bound. reflexivity.
Qed.

Lemma byte_shiftr_2_range (x : Z) : 0 <= Z.shiftr (Z.land x 255) 2 < 64.
Proof.
  change 255 with (Z.ones 8). rewrite Z.land_ones by lia.
  rewrite Z.shiftr_div_pow2 by lia.
  pose proof (Z.mod_pos_bound x (2 ^ 8) eq_refl) as H.
  change (2 ^ 8) with 256 in *. change (2 ^ 2) with 4.
  split.
  - apply Z.div_pos; lia.
  - apply Z.div_lt_upper_bound; lia.
Qed.

(** An identity has eleven characters. *)
Theorem _hash_length (inp : string) : String.length (_hash inp) = 11%nat.
Proof.
  unfold _hash, MD5.digest.
  generalize (fold_left MD5.compress
                (MD5.blocks
                   (List.length
                      (MD5.words (List.length (MD5.pad (str_encode inp)))
                         (MD5.pad (str_encode inp))))
                   (MD5.words (List.length (MD5.pad (str_encode inp)))
                      (MD5.pad (str_encode inp))))
                MD5.init).
  intros st. rewrite !le_bytes_4. reflexivity.
Qed.

(** Every character of an identity is a letter, a digit, [-] or [_]: the
    cut at eleven characters falls before the padding of the encoding. *)
Theorem _hash_urlsafe (inp : string) :
  str_forallb urlsafe_char (_hash inp) = true.
Proof.
  unfold _hash, MD5.digest.
  generalize (fold_left MD5.compress
                (MD5.blocks
                   (List.length
                      (MD5.words (List.length (MD5.pad (str_encode inp)))
                         (MD5.pad (str_encode inp))))
                   (MD5.words (List.length (MD5.pad (str_encode inp)))
                      (MD5.pad (str_encode inp))))
                MD5.init).
  intros st. rewrite !le_bytes_4.
  unfold str_prefix, HASH_LENGTH_TRUNCATE, str_forallb.
  cbn [app Base64.encode substring list_ascii_of_string forallb].
  rewrite !sextet_urlsafe
    by (apply byte_shiftr_2_range || apply land_63_range).
  reflexivity.
Qed.

(** ** Calling [hash] *)

Lemma hash_given (self : ScriptObject) (p : dict PyVal) :
  hash self (Some p) = (Some (fst (hash_with self p)), snd (hash_with self p)).
Proof. unfold hash, hash_with. destruct self; reflexivity. Qed.

(** A second call of [hash] with the same argument returns the same value
    and leaves the script as the first call left it. *)
Theorem hash_idempotent (self : ScriptObject) (params : option (dict PyVal)) :
  hash (snd (hash self params)) params = hash self params.
Proof.
  unfold hash. destruct self as [s | r]; destruct params as [p |];
    reflexivity.
Qed.

(** Without an argument, [hash] hashes the parameters of the attached
    request; a script that has no request gets [None] and nothing is
    hashed. *)
Theorem hash_without_argument (self : ScriptObject) :
  hash self None =
  match self with
  | PlainScript _ => (None, self)
  | RequestScript r => hash self (Some (req_params (request r)))
  end.
Proof. destruct self; reflexivity. Qed.

(** With no parameters at all the identity is the digest of the script
    name alone, whether [params] is empty or the request has none. *)
Theorem hash_no_params (self : ScriptObject) :
  fst (hash self (Some [])) = Some (_hash (name (script_of self))).
Proof.
  unfold hash, hash_of. cbn [params_str]. rewrite append_nil_r.
  destruct self; reflexivity.
Qed.

(** ** What the iteration yields *)

Lemma param_values_of_NoDup (s : CadScript) (c : list PyVal) :
  NoDup (dict_keys (param_values_of s c)).
Proof. apply (dict_update_NoDup _ []). constructor. Qed.

Lemma hash_script (self : ScriptObject) (p : option (dict PyVal)) :
  script_of (snd (hash self p)) = script_of self.
Proof. unfold hash. destruct self, p; reflexivity. Qed.

Lemma yield_each_hashes (combinations : list (list PyVal)) :
  forall self item,
    In item (fst (yield_each self combinations)) ->
    fst item = Some (hash_of (name (script_of self)) (snd item)).
Proof.
  induction combinations as [|c rest IH]; intros self item; [intros [] |].
  cbn [yield_each].
  pose proof (hash_script self
    (Some (dict_of_pairs (param_values_of (script_of self) c)))) as Hs.
  pose proof (hash_given self
    (dict_of_pairs (param_values_of (script_of self) c))) as Hg.
  destruct (hash self (Some (dict_of_pairs (param_values_of (script_of self) c))))
    as [h self1].
  specialize (IH self1).
  destruct (yield_each self1 rest) as [items self2].
  cbn [fst snd] in *. intros [<- | Hin].
  - cbn [fst snd]. injection Hg as -> _.
    rewrite (dict_of_pairs_id _ (param_values_of_NoDup _ c)).
    unfold hash_with. destruct self; reflexivity.
  - rewrite <- Hs. now apply IH.
Qed.

Lemma iterate_Ok_inv (self : ScriptObject)
  (items : list (option string * dict PyVal)) (self' : ScriptObject) :
  iterate_possible_model_params_dicts self = Ok (items, self') ->
  existsb unbounded (dict_values (params (script_of self))) = false /\
  yield_each self (product (map domain (dict_values (params (script_of self)))))
  = (items, self').
Proof.
  unfold iterate_possible_model_params_dicts, all_values_per_parameter.
  destruct (existsb unbounded (dict_values (params (script_of self)))) eqn:E.
  - rewrite (iter_all_unbounded _ E). discriminate.
  - rewrite (iter_all_domains _ E). cbn [bind]. intros [= H]. now split.
Qed.

(** Each identity the iteration yields is the hash of the assignment
    yielded with it. *)
Theorem iterate_hash_consistent (self : ScriptObject)
  (items : list (option string * dict PyVal)) (self' : ScriptObject) :
  iterate_possible_model_params_dicts self = Ok (items, self') ->
  forall item, In item items ->
    fst item = Some (hash_of (name (script_of self)) (snd item)).
Proof.
  intros H item Hin. apply iterate_Ok_inv in H as [_ H].
  apply (yield_each_hashes
           (product (map domain (dict_values (params (script_of self)))))).
  now rewrite H.
Qed.

Lemma box_iteration_Ok :
  iterate_possible_model_params_dicts (PlainScript Box.script) =
  Ok (fst box_iteration, snd box_iteration).
Proof. vm_compute. reflexivity. Qed.

Lemma iterate_hash_consistent_witness :
  fst (Some "71Se-h08QnT", box_A) =
  Some (hash_of (name Box.script) (snd (Some "71Se-h08QnT", box_A))).
Proof.
  apply (iterate_hash_consistent (PlainScript Box.script)
           (fst box_iteration) (snd box_iteration)).
  - vm_compute. reflexivity.
  - vm_compute. left. reflexivity.
Defined.

(** [get_num_variants()] returns [None] exactly for the scripts on which
    the iteration raises [TypeError], which it does before yielding
    anything: an enabled parameter whose [values()] is [None]. *)
Theorem iterate_raises_iff_unbounded (self : ScriptObject) :
  get_num_variants (script_of self) None = None <->
  iterate_possible_model_params_dicts self = Raise TypeError.
Proof.
  unfold get_num_variants, selected_params.
  rewrite num_variants_loop_spec.
  unfold iterate_possible_model_params_dicts, all_values_per_parameter.
  destruct (existsb unbounded (dict_values (params (script_of self)))) eqn:E.
  - rewrite (iter_all_unbounded _ E). tauto.
  - rewrite (iter_all_domains _ E). cbn [bind]. split; discriminate.
Qed.

Lemma product_In {A : Type} (pools : list (list A)) : forall c,
  In c (product pools) <-> Forall2 (fun v pool => In v pool) c pools.
Proof.
  induction pools as [|pool rest IH]; intros c; cbn [product].
  - split.
    + intros [<- | []]. constructor.
    + intros H. inversion H. now left.
  - rewrite in_flat_map. split.
    + intros (x & Hx & Hc). apply in_map_iff in Hc as (c' & <- & Hc').
      constructor; [exact Hx | now apply IH].
    + intros H. inversion H as [|v pool' c' rest' Hv Hc']; subst.
      exists v. split; [exact Hv |]. apply in_map, IH, Hc'.
Qed.

Lemma Forall2_map_r {A B C : Type} (R : A -> C -> Prop) (f : B -> C)
  (l : list A) (l' : list B) :
  Forall2 R l (map f l') <-> Forall2 (fun a b => R a (f b)) l l'.
Proof.
  revert l. induction l' as [|b l' IH]; intros l; cbn [map].
  - split; intros H; inversion H; constructor.
  - split; intros H; inversion H; subst; constructor; auto; now apply IH.
Qed.

(** The iteration is exhaustive and yields nothing else: an assignment is
    yielded if and only if it is built from a combination that takes, for
    each parameter in declaration order, one value of its domain. *)
Theorem iterate_exhaustive (self : ScriptObject)
  (items : list (option string * dict PyVal)) (self' : ScriptObject) :
  iterate_possible_model_params_dicts self = Ok (items, self') ->
  forall d, In d (map snd items) <->
    exists c, in_domains c (dict_values (params (script_of self))) /\
              d = param_values_of (script_of self) c.
Proof.
  intros H d. apply iterate_Ok_inv in H as [_ H].
  pose proof (yield_each_items
    (product (map domain (dict_values (params (script_of self))))) self) as Hi.
  rewrite H in Hi. cbn [fst] in Hi. rewrite Hi, in_map_iff.
  unfold in_domains. split.
  - intros (c & <- & Hc). exists c. split; [| reflexivity].
    apply product_In in Hc.
    exact (proj1 (Forall2_map_r (fun v pool => In v pool) domain _ _) Hc).
  - intros (c & Hc & ->). exists c. split; [reflexivity |].
    apply product_In.
    exact (proj2 (Forall2_map_r (fun v pool => In v pool) domain _ _) Hc).
Qed.

Lemma iterate_exhaustive_witness :
  In [("width", VInt 2); ("color", VStr "blue")]
     (map snd (fst box_iteration)) <->
  exists c, in_domains c (dict_values (params Box.script)) /\
            [("width", VInt 2); ("color", VStr "blue")] =
            param_values_of Box.script c.
Proof.
  apply (iterate_exhaustive (PlainScript Box.script)
           (fst box_iteration) (snd box_iteration)).
  vm_compute. reflexivity.
Defined.

Lemma NoDup_map_inj_on {A B : Type} (f : A -> B) (l : list A) :
  (forall x y, In x l -> In y l -> f x = f y -> x = y) ->
  NoDup l -> NoDup (map f l).
Proof.
  induction l as [|a l IH]; cbn [map]; intros Hinj ND; [constructor |].
  inversion ND as [|? ? Hnin ND']; subst. constructor.
  - intros Hin. apply in_map_iff in Hin as (x & Hx & Hin).
    apply Hnin. rewrite <- (Hinj x a); simpl; auto.
  - apply IH; [| exact ND']. intros x y Hx Hy. apply Hinj; simpl; auto.
Qed.

Lemma NoDup_product {A : Type} (pools : list (list A)) :
  Forall (@NoDup A) pools -> NoDup (product pools).
Proof.
  induction 1 as [|pool rest Hpool _ IH]; cbn [product].
  - repeat constructor. intros [].
  - induction pool as [|x pool IHp]; cbn [flat_map]; [constructor |].
    inversion Hpool as [|? ? Hnin Hpool']; subst.
    apply NoDup_app.
    + apply NoDup_map_inj_on; [| exact IH]. intros c c' _ _ [= E]. exact E.
    + apply IHp, Hpool'.
    + intros c Hc Hc'.
      apply in_map_iff in Hc as (c0 & <- & _).
      apply in_flat_map in Hc' as (y & Hy & Hc').
      apply in_map_iff in Hc' as (c1 & [= -> _] & _). contradiction.
Qed.

Lemma names_values_snd (ps : list ParamConfig) : forall c,
  List.length c = List.length ps -> map snd (names_values ps c) = c.
Proof.
  unfold names_values.
  induction ps as [|p ps IH]; intros [|v c] H; simpl in *;
    try discriminate; [reflexivity |].
  f_equal. apply IH. now injection H.
Qed.

(** When the parameter names are distinct and no domain lists a value
    twice, no assignment is yielded twice. *)
Theorem iterate_no_duplicates (self : ScriptObject)
  (items : list (option string * dict PyVal)) (self' : ScriptObject) :
  iterate_possible_model_params_dicts self = Ok (items, self') ->
  NoDup (map param_name (dict_values (params (script_of self)))) ->
  (forall p, In p (dict_values (params (script_of self))) ->
             NoDup (domain p)) ->
  NoDup (map snd items).
Proof.
  intros H Hnames Hdom. apply iterate_Ok_inv in H as [_ H].
  set (ps := dict_values (params (script_of self))) in *.
  pose proof (yield_each_items (product (map domain ps)) self) as Hi.
  rewrite H in Hi. cbn [fst] in Hi. rewrite Hi.
  assert (Hlen : forall c, In c (product (map domain ps)) ->
                           List.length c = List.length ps).
  { intros c Hc. apply product_In_length in Hc. now rewrite length_map in Hc. }
  apply NoDup_map_inj_on.
  - intros c c' Hc Hc' E.
    rewrite !(param_values_of_combination _ _ Hnames) in E
      by (fold ps; auto).
    fold ps in E.
    rewrite <- (names_values_snd ps c), <- (names_values_snd ps c'), E; auto.
  - apply NoDup_product, Forall_forall.
    intros pool Hpool. apply in_map_iff in Hpool as (p & <- & Hp). auto.
Qed.

Lemma iterate_no_duplicates_witness : NoDup (map snd (fst box_iteration)).
Proof.
  apply (iterate_no_duplicates (PlainScript Box.script)
           (fst box_iteration) (snd box_iteration)).
  - vm_compute. reflexivity.
  - nodup_strings.
  - simpl. intros p [<- | [<- | []]]; repeat constructor; simpl;
      intuition discriminate.
Defined.

Lemma last_cons_default {A : Type} (l : list A) : forall a d,
  last (a :: l) d = last l a.
Proof.
  induction l as [|b l IH]; intros a d; [reflexivity |].
  change (last (a :: b :: l) d) with (last (b :: l) d).
  now rewrite !IH.
Qed.

Lemma yield_each_self (combinations : list (list PyVal)) : forall self,
  snd (yield_each self combinations) =
  after_hashes self (map fst (fst (yield_each self combinations))).
Proof.
  induction combinations as [|c rest IH]; intros self.
  - destruct self as [s | [b st [? ? ? ? ? ? ? ? ?]]]; reflexivity.
  - cbn [yield_each].
    pose proof (hash_given self
      (dict_of_pairs (param_values_of (script_of self) c))) as Hg.
    destruct (hash self
      (Some (dict_of_pairs (param_values_of (script_of self) c))))
      as [h self1].
    specialize (IH self1).
    destruct (yield_each self1 rest) as [items self2].
    cbn [fst snd map] in *. rewrite IH. injection Hg as -> ->.
    unfold hash_with, after_hashes.
    destruct self as [s | r]; cbn [fst snd base status request];
      [reflexivity |].
    rewrite last_cons_default. reflexivity.
Qed.

(** The iteration changes nothing of the script but [request.hash], which
    it leaves at the last identity yielded (and as it was when nothing is
    yielded); a script without a request is left as it was. *)
Theorem iterate_frame (self : ScriptObject)
  (items : list (option string * dict PyVal)) (self' : ScriptObject) :
  iterate_possible_model_params_dicts self = Ok (items, self') ->
  script_of self' = script_of self /\
  self' = after_hashes self (map fst items).
Proof.
  intros H. apply iterate_Ok_inv in H as [_ H].
  pose proof (yield_each_script
    (product (map domain (dict_values (params (script_of self))))) self) as Hs.
  pose proof (yield_each_self
    (product (map domain (dict_values (params (script_of self))))) self) as Hf.
  rewrite H in Hs, Hf. cbn [fst snd] in *. now split.
Qed.

Lemma iterate_frame_witness :
  script_of (snd box_iteration) = script_of (PlainScript Box.script) /\
  snd box_iteration =
    after_hashes (PlainScript Box.script) (map fst (fst box_iteration)).
Proof.
  apply (iterate_frame (PlainScript Box.script)
           (fst box_iteration) (snd box_iteration)).
  vm_compute. reflexivity.
Defined.

(** ** All assignments at once *)

Lemma collect_each_spec (combinations : list (list PyVal)) :
  forall self acc,
    collect_each self combinations acc =
    (dict_update acc
       (map (fun it => keyed (name (script_of self)) (snd it))
          (fst (yield_each self combinations))),
     snd (yield_each self combinations)).
Proof.
  induction combinations as [|c rest IH]; intros self acc; [reflexivity |].
  cbn [collect_each yield_each].
  pose proof (hash_given self
    (dict_of_pairs (param_values_of (script_of self) c))) as Hg.
  pose proof (hash_script self
    (Some (dict_of_pairs (param_values_of (script_of self) c)))) as Hs.
  destruct (hash self
    (Some (dict_of_pairs (param_values_of (script_of self) c))))
    as [h self1].
  destruct (hash_with self (dict_of_pairs (param_values_of (script_of self) c)))
    as [h' self1'] eqn:Ew.
  cbn [fst snd] in *. injection Hg as -> ->.
  rewrite IH, Hs.
  destruct (yield_each self1' rest) as [items self2]. cbn [fst snd map].
  unfold dict_update at 2. cbn [fold_left]. fold (@dict_update (dict PyVal)).
  unfold keyed at 2. cbn [fst snd].
  replace h' with
    (hash_of (name (script_of self)) (param_values_of (script_of self) c));
    [reflexivity |].
  rewrite <- (dict_of_pairs_id _ (param_values_of_NoDup (script_of self) c))
    at 1.
  unfold hash_with in Ew. destruct self; now injection Ew as <- _.
Qed.

(** On a cachable script [all_possible_model_params_dicts] is the
    iteration collected into a dictionary: every yielded assignment, in
    order, stored under its hash; it raises when the iteration raises.  On a
    script that is not cachable it returns the empty dictionary and hashes
    nothing. *)
Theorem all_possible_collects_iteration (self : ScriptObject) :
  all_possible_model_params_dicts self =
  if is_cachable (script_of self) then
    match iterate_possible_model_params_dicts self with
    | Ok (items, self') =>
        Ok (dict_of_pairs
              (map (fun it => keyed (name (script_of self)) (snd it)) items),
            self')
    | Raise e => Raise e
    end
  else Ok ([], self).
Proof.
  unfold all_possible_model_params_dicts, iterate_possible_model_params_dicts.
  destruct (is_cachable (script_of self)); cbn [negb]; [| reflexivity].
  destruct (iter_all (all_values_per_parameter (script_of self)))
    as [pools | e]; cbn [bind]; [| reflexivity].
  rewrite collect_each_spec.
  now destruct (yield_each self (product pools)).
Qed.

Lemma dict_set_In {V : Type} (d : dict V) k0 v0 k v :
  In (k, v) (dict_set d k0 v0) -> In (k, v) d \/ (k, v) = (k0, v0).
Proof.
  induction d as [|[k1 v1] d IH]; simpl.
  - intros [H | []]. now right.
  - destruct (String.eqb k0 k1) eqn:E; simpl.
    + apply String.eqb_eq in E; subst k1.
      intros [H | H]; [right; congruence | left; now right].
    + intros [H | H]; [left; now left |].
      destruct (IH H); [left; now right | now right].
Qed.

Lemma dict_update_In {V : Type} (l : list (string * V)) : forall d k v,
  In (k, v) (dict_update d l) -> In (k, v) d \/ In (k, v) l.
Proof.
  unfold dict_update.
  induction l as [|[k0 v0] l IH]; cbn [fold_left]; intros d k v H; [now left |].
  apply IH in H as [H | H]; [| right; now right].
  apply dict_set_In in H as [H | H]; [now left | right; left; now symmetry].
Qed.

Lemma dict_set_length {V : Type} (d : dict V) k v :
  (List.length (dict_set d k v) <= S (List.length d))%nat.
Proof.
  induction d as [|[k1 v1] d IH]; simpl; [lia |].
  destruct (String.eqb k k1); simpl; lia.
Qed.

Lemma dict_update_length {V : Type} (l : list (string * V)) : forall d,
  (List.length (dict_update d l) <= List.length d + List.length l)%nat.
Proof.
  unfold dict_update.
  induction l as [|[k0 v0] l IH]; cbn [fold_left]; intros d; [simpl; lia |].
  specialize (IH (dict_set d k0 v0)).
  pose proof (dict_set_length d k0 v0). simpl in *. lia.
Qed.

Lemma all_possible_Ok_inv (self : ScriptObject) (d : dict (dict PyVal))
  (self' : ScriptObject) :
  all_possible_model_params_dicts self = Ok (d, self') ->
  d = [] \/
  existsb unbounded (dict_values (params (script_of self))) = false /\
  d = dict_of_pairs
        (map (fun it => keyed (name (script_of self)) (snd it))
           (fst (yield_each self
                   (product
                      (map domain (dict_values (params (script_of self)))))))).
Proof.
  unfold all_possible_model_params_dicts, all_values_per_parameter.
  destruct (is_cachable (script_of self)); cbn [negb];
    [| intros [= <- _]; now left].
  destruct (existsb unbounded (dict_values (params (script_of self)))) eqn:E.
  - rewrite (iter_all_unbounded _ E). discriminate.
  - rewrite (iter_all_domains _ E). cbn [bind].
    rewrite collect_each_spec. intros [= <- _]. right. now split.
Qed.

(** Every entry of the dictionary returned is an assignment of the
    parameter space stored under its own hash. *)
Theorem all_possible_entries (self : ScriptObject) (d : dict (dict PyVal))
  (self' : ScriptObject) :
  all_possible_model_params_dicts self = Ok (d, self') ->
  forall h param_values, In (h, param_values) d ->
    h = hash_of (name (script_of self)) param_values /\
    exists c, in_domains c (dict_values (params (script_of self))) /\
              param_values = param_values_of (script_of self) c.
Proof.
  intros H h pv Hin.
  apply all_possible_Ok_inv in H as [-> | [_ ->]]; [destruct Hin |].
  apply dict_update_In in Hin as [[] | Hin].
  apply in_map_iff in Hin as (it & E & Hit).
  unfold keyed in E. injection E as <- <-. split; [reflexivity |].
  assert (Hd : In (snd it)
                 (map snd (fst (yield_each self
                    (product
                       (map domain (dict_values (params (script_of self)))))))))
    by now apply in_map.
  rewrite yield_each_items in Hd.
  apply in_map_iff in Hd as (c & <- & Hc). exists c. split; [| reflexivity].
  apply product_In in Hc.
  exact (proj1 (Forall2_map_r (fun v pool => In v pool) domain _ _) Hc).
Qed.

Lemma all_possible_entries_witness :
  "71Se-h08QnT" = hash_of (name Box.script) box_A /\
  exists c, in_domains c (dict_values (params Box.script)) /\
            box_A = param_values_of Box.script c.
Proof.
  apply (all_possible_entries (PlainScript Box.script)
           (dict_of_pairs
              (map (fun it => keyed "box" (snd it)) (fst box_iteration)))
           (snd box_iteration)).
  - vm_compute. reflexivity.
  - vm_compute. left. reflexivity.
Defined.

(** The dictionary returned never has more entries than
    [get_num_variants()] counts. *)
Theorem all_possible_size (self : ScriptObject) (d : dict (dict PyVal))
  (self' : ScriptObject) (n : Z) :
  all_possible_model_params_dicts self = Ok (d, self') ->
  get_num_variants (script_of self) None = Some n ->
  Z.of_nat (List.length d) <= n.
Proof.
  intros H Hn.
  unfold get_num_variants, selected_params in Hn.
  rewrite num_variants_loop_spec in Hn.
  destruct (existsb unbounded (dict_values (params (script_of self)))) eqn:E;
    [discriminate |].
  rewrite Z.mul_1_l, (Zproduct_domain_sizes _ E) in Hn. injection Hn as Hn.
  apply all_possible_Ok_inv in H as [-> | [_ ->]];
    [cbn [List.length]; lia |].
  unfold dict_of_pairs.
  pose proof (dict_update_length
    (map (fun it => keyed (name (script_of self)) (snd it))
       (fst (yield_each self
          (product (map domain (dict_values (params (script_of self))))))))
    []) as Hl.
  rewrite length_map, yield_each_length, length_product in Hl.
  cbn [List.length Nat.add] in Hl. lia.
Qed.

Lemma all_possible_size_witness :
  Z.of_nat
    (List.length
       (dict_of_pairs (map (fun it => keyed "box" (snd it)) (fst box_iteration))))
  <= 6.
Proof.
  apply (all_possible_size (PlainScript Box.script) _ (snd box_iteration)).
  - vm_compute. reflexivity.
  - reflexivity.
Defined.

(** ** Selections of parameters *)

(** Names that are not parameters of the script are ignored, no error is
    raised for them: a selection that names no declared parameter, the
    empty selection included, counts one variant. *)
Theorem get_num_variants_unknown_names (s : CadScript) (names : list string) :
  (forall pn, In pn names -> dict_get (params s) pn = None) ->
  get_num_variants s (Some names) = Some 1.
Proof.
  intros H. unfold get_num_variants, selected_params, select_params.
  replace (flat_map (pick (params s)) names) with (@nil (string * ParamConfig));
    [reflexivity |].
  induction names as [|pn names IH]; [reflexivity |].
  cbn [flat_map]. unfold pick at 1.
  rewrite (H pn) by now left. apply IH. intros pn' Hpn'. apply H. now right.
Qed.

Lemma get_num_variants_unknown_names_witness :
  get_num_variants Box.script (Some ["depth"; "Width"]) = Some 1.
Proof.
  apply (get_num_variants_unknown_names Box.script).
  simpl. intros pn [<- | [<- | []]]; reflexivity.
Defined.

Lemma get_num_variants_variant_count (s : CadScript)
  (only_params : option (list string)) :
  get_num_variants s only_params =
  variant_count (dict_values (selected_params s only_params)).
Proof.
  unfold get_num_variants, variant_count. rewrite num_variants_loop_spec.
  destruct (existsb unbounded _); [reflexivity |]. f_equal. lia.
Qed.

(** The count depends on the set of selected names only: repeating a name
    or listing the names in another order does not change it. *)
Theorem get_num_variants_same_names (s : CadScript)
  (names names' : list string) :
  NoDup (dict_keys (params s)) ->
  (forall pn, In pn names <-> In pn names') ->
  get_num_variants s (Some names) = get_num_variants s (Some names').
Proof.
  intros ND H. rewrite !get_num_variants_variant_count.
  unfold selected_params, dict_values.
  rewrite (variant_count_Permutation _ _
             (Permutation_map snd
                (select_params_Permutation (params s) ND names))).
  rewrite (variant_count_Permutation _ _
             (Permutation_map snd
                (select_params_Permutation (params s) ND names'))).
  do 2 f_equal. apply filter_ext. intros [k v]. cbn [fst].
  apply eq_true_iff_eq. rewrite !existsb_eqb_In. apply H.
Qed.

Lemma get_num_variants_same_names_witness :
  get_num_variants Box.script (Some ["color"; "width"; "color"]) =
  get_num_variants Box.script (Some ["width"; "color"]).
Proof.
  apply (get_num_variants_same_names Box.script).
  - nodup_strings.
  - simpl. tauto.
Defined.

(** A script is cachable exactly when none of its parameters, enabled or
    not, has [iterable] false. *)
Theorem is_cachable_iff (s : CadScript) :
  is_cachable s = true <->
  forall p, In p (dict_values (params s)) -> param_iterable p = true.
Proof.
  unfold is_cachable. split.
  - intros H p Hin. destruct (param_iterable p) eqn:E; [reflexivity |].
    assert (Hf : is_cachable_loop (dict_values (params s)) = false)
      by (apply is_cachable_false; exists p; auto).
    congruence.
  - intros H. destruct (is_cachable_loop (dict_values (params s))) eqn:E;
      [reflexivity |].
    apply is_cachable_false in E as (p & Hin & Hp).
    rewrite (H p Hin) in Hp. discriminate.
Qed.

(** ** Publication and pre-calculation *)

Section PublishFacts.
Import Admin.
Context {Library Api ComputeBatchStats : Type}.
Variable add_script : Library -> CadScript -> bool * Library.
Variable get_script_request :
  Library -> string -> string -> string -> option CadScriptRequest.
Variable get_compute_batch : Library -> string -> option ComputeBatchStats.
Variable _generate_version_endpoint : Api -> CadScript -> Api.
Variable _generate_default_version_endpoint : Api -> CadScript -> Api.
Variable lower : string -> string.
Variable default_job_id : string.
Variable default_now : Z.

Let State := AdminState Library Api ComputeBatchStats.

Let handle_publish :=
  _handle_publish_request Library Api ComputeBatchStats add_script
    _generate_version_endpoint _generate_default_version_endpoint
    default_job_id default_now.

Let get_job :=
  _get_publish_job Library Api ComputeBatchStats get_compute_batch.

Let handle_precalc :=
  _handle_precalc_request Library Api ComputeBatchStats get_script_request
    lower.

Let route :=
  serve Library Api ComputeBatchStats add_script get_script_request
    get_compute_batch _generate_version_endpoint
    _generate_default_version_endpoint lower default_job_id default_now.

(** A publish request passes the checks exactly when it carries a script
    with an organisation of at least 4 characters, a name of at least 4 and
    a code of at least 10. *)
Theorem _check_publish_request_accepts (req : PublishRequest) :
  _check_publish_request req = Ok true <->
  exists s o c,
    script req = Some s /\ org s = Some o /\ code s = Some c /\
    SCRIPT_ORG_MIN_CHARS <= str_len o /\
    SCRIPT_NAME_MIN_CHARS <= str_len (name s) /\
    SCRIPT_CODE_MIN_CHARS <= str_len c.
Proof.
  unfold _check_publish_request, get_namespace,
    SCRIPT_ORG_MIN_CHARS, SCRIPT_NAME_MIN_CHARS, SCRIPT_CODE_MIN_CHARS.
  split.
  - destruct (script req) as [s |]; [| discriminate].
    destruct (org s) as [o |] eqn:Eorg; [| discriminate].
    destruct (_ && _)%bool; [| discriminate].
    destruct (str_len o <? 4) eqn:Eo; [discriminate |].
    destruct (str_len (name s) <? 4) eqn:En; [discriminate |].
    destruct (code s) as [c |] eqn:Ecode; [| discriminate].
    destruct (str_len c <? 10) eqn:Ec; [discriminate |].
    intros _. exists s, o, c.
    apply Z.ltb_ge in Eo, En, Ec. repeat split; try reflexivity; assumption.
  - intros (s & o & c & -> & -> & -> & Ho & Hn & Hc).
    replace (0 <? str_len o) with true by (symmetry; apply Z.ltb_lt; lia).
    replace (0 <? str_len (name s)) with true
      by (symmetry; apply Z.ltb_lt; lia).
    cbn [andb].
    replace (str_len o <? 4) with false by (symmetry; apply Z.ltb_ge; lia).
    replace (str_len (name s) <? 4) with false
      by (symmetry; apply Z.ltb_ge; lia).
    replace (str_len c <? 10) with false by (symmetry; apply Z.ltb_ge; lia).
    reflexivity.
Qed.

(** A publish request that ends in an error has created no task and
    registered no publish job.  The error is either a 400, and then no
    route has been generated, or the [AttributeError] of the call
    [req.script.is_pre_cachable()], which is raised only when
    [pre_calculate] is set and only after the script has been added and
    both routes generated. *)
Theorem publish_error_outcome (st : State) (req : PublishRequest)
  (uuid : string) (e : PyExc) :
  fst (handle_publish st req uuid) = Raise e ->
  created_tasks (snd (handle_publish st req uuid)) = created_tasks st /\
  publish_jobs (snd (handle_publish st req uuid)) = publish_jobs st /\
  (e = HTTPException 400 /\
   api (snd (handle_publish st req uuid)) = api st
   \/
   e = AttributeError /\ pre_calculate req = true /\
   exists s,
     script req = Some s /\
     fst (add_script (library st) s) = true /\
     library (snd (handle_publish st req uuid)) =
       snd (add_script (library st) s) /\
     api (snd (handle_publish st req uuid)) =
       _generate_default_version_endpoint
         (_generate_version_endpoint (api st) s) s).
Proof.
  subst handle_publish. unfold _handle_publish_request.
  destruct (_check_publish_request_cases req) as [E | E]; rewrite E.
  - apply _check_publish_request_accepts in E as (s & o & c & Hs & _).
    rewrite Hs.
    destruct (add_script (library st) s) as [added lib] eqn:Ea.
    destruct added; cbn [negb].
    + destruct (pre_calculate req) eqn:Hp; cbn [negb].
      * unfold is_pre_cachable. cbn. intros [= <-]. repeat split.
        right. repeat split. exists s. rewrite Ea. repeat split.
      * cbn [fst]. discriminate.
    + cbn. intros [= <-]. repeat split. now left.
  - cbn. intros [= <-]. repeat split. now left.
Qed.

(** Publishing never starts a pre-calculation: whatever the request, no
    task is created and no publish job registered; a job is returned only
    when [pre_calculate] is not set, with status [success]; and a request
    with [pre_calculate] set always ends in an error. *)
Theorem publish_never_computes (st : State) (req : PublishRequest)
  (uuid : string) :
  created_tasks (snd (handle_publish st req uuid)) = created_tasks st /\
  publish_jobs (snd (handle_publish st req uuid)) = publish_jobs st /\
  (forall job, fst (handle_publish st req uuid) = Ok job ->
     pub_status job = Some success /\ pre_calculate req = false) /\
  (pre_calculate req = true ->
   exists e, fst (handle_publish st req uuid) = Raise e).
Proof.
  subst handle_publish. unfold _handle_publish_request.
  assert (Herr : forall (e : PyExc) (st' : State),
            created_tasks st' = created_tasks st ->
            publish_jobs st' = publish_jobs st ->
            created_tasks (snd (@Raise (PublishJob ComputeBatchStats) e, st'))
              = created_tasks st /\
            publish_jobs (snd (@Raise (PublishJob ComputeBatchStats) e, st'))
              = publish_jobs st /\
            (forall job,
               fst (@Raise (PublishJob ComputeBatchStats) e, st') = Ok job ->
               pub_status job = Some success /\ pre_calculate req = false) /\
            (pre_calculate req = true ->
             exists e',
               fst (@Raise (PublishJob ComputeBatchStats) e, st') = Raise e')).
  { intros e st' Ht Hj. cbn [fst snd].
    split; [exact Ht |]. split; [exact Hj |].
    split; [intros job Hjob; discriminate Hjob |].
    intros _. now exists e. }
  destruct (_check_publish_request_cases req) as [E | E]; rewrite E;
    [| now apply Herr].
  apply _check_publish_request_accepts in E as (s & o & c & Hs & _).
  rewrite Hs.
  destruct (add_script (library st) s) as [added lib].
  destruct added; cbn [negb]; [| now apply Herr].
  destruct (pre_calculate req) eqn:Hp; cbn [negb].
  - unfold is_pre_cachable. now apply Herr.
  - cbn [fst snd].
    split; [reflexivity |]. split; [reflexivity |].
    split; [| discriminate].
    intros job [= <-]. now split.
Qed.

(** A publish request answered with a job of status [success] gets the
    identifier that the class [PublishJob] computed once for its default;
    the job is not registered, so asking for it afterwards finds nothing
    unless a job was registered under that identifier before. *)
Theorem publish_success_not_registered (st : State) (req : PublishRequest)
  (uuid : string) (job : PublishJob ComputeBatchStats) :
  fst (handle_publish st req uuid) = Ok job ->
  pub_status job = Some success ->
  job_id job = default_job_id /\
  created_tasks (snd (handle_publish st req uuid)) = created_tasks st /\
  publish_jobs (snd (handle_publish st req uuid)) = publish_jobs st /\
  (dict_get (publish_jobs st) default_job_id = None ->
   fst (get_job (snd (handle_publish st req uuid)) (job_id job)) =
     Raise (HTTPException 404)).
Proof.
  subst handle_publish get_job. unfold _handle_publish_request.
  destruct (_check_publish_request_cases req) as [E | E]; rewrite E;
    [| discriminate].
  apply _check_publish_request_accepts in E as (s & o & c & -> & _).
  destruct (add_script (library st) s) as [added lib].
  destruct added; cbn [negb]; [| discriminate].
  destruct (pre_calculate req); cbn [negb].
  - unfold is_pre_cachable. discriminate.
  - cbn [fst snd]. intros [= <-] _. cbn. repeat split.
    intros Hnone. unfold _get_publish_job. cbn. now rewrite Hnone.
Qed.

(** Asking for a publish job: an unknown identifier is answered with 404
    and changes nothing; a known one returns the stored job with fresh
    statistics, stores it back under the same identifier and touches no
    other job, so that asking again gives the same answer. *)
Theorem get_publish_job_lookup (st : State) (id : string) :
  match dict_get (publish_jobs st) id with
  | None => get_job st id = (Raise (HTTPException 404), st)
  | Some stored =>
      exists job st',
        get_job st id = (Ok job, st') /\
        job = mkPublishJob (job_id stored) (job_created_at stored)
                (job_updated_at stored) (pub_script stored)
                (pub_status stored) (get_compute_batch (library st) id) /\
        dict_get (publish_jobs st') id = Some job /\
        (forall id', id' <> id ->
           dict_get (publish_jobs st') id' = dict_get (publish_jobs st) id') /\
        created_tasks st' = created_tasks st /\
        get_job st' id = (Ok job, st')
  end.
Proof.
  subst get_job. unfold _get_publish_job.
  destruct (dict_get (publish_jobs st) id) as [stored |] eqn:E;
    [| reflexivity].
  eexists. eexists. split; [reflexivity |]. split; [reflexivity |].
  cbn [publish_jobs with_publish_jobs library created_tasks].
  rewrite dict_get_set, String.eqb_refl.
  split; [reflexivity |]. split.
  - intros id' Hne. rewrite dict_get_set.
    apply String.eqb_neq in Hne. now rewrite Hne.
  - split; [reflexivity |].
    cbn [job_id job_created_at job_updated_at pub_script pub_status].
    f_equal. unfold with_publish_jobs.
    cbn [passphrase library api created_tasks publish_jobs]. f_equal.
    clear E. induction (publish_jobs st) as [|[k v] d IH]; simpl.
    + now rewrite String.eqb_refl.
    + destruct (String.eqb id k) eqn:Ek; simpl; rewrite Ek;
        [reflexivity | now rewrite IH].
Qed.

End PublishFacts.

Section PrecalcFacts.
Import Admin.
Context {Library Api ComputeBatchStats : Type}.
Variable add_script : Library -> CadScript -> bool * Library.
Variable get_script_request :
  Library -> string -> string -> string -> option CadScriptRequest.
Variable get_compute_batch : Library -> string -> option ComputeBatchStats.
Variable _generate_version_endpoint : Api -> CadScript -> Api.
Variable _generate_default_version_endpoint : Api -> CadScript -> Api.
Variable lower : string -> string.
Variable default_job_id : string.
Variable default_now : Z.

Let State := AdminState Library Api ComputeBatchStats.

Let handle_precalc :=
  _handle_precalc_request Library Api ComputeBatchStats get_script_request
    lower.

Let route :=
  serve Library Api ComputeBatchStats add_script get_script_request
    get_compute_batch _generate_version_endpoint
    _generate_default_version_endpoint lower default_job_id default_now.

(** A pre-calculation request either is answered with a 400 error and
    changes nothing, or returns the batch identifier after creating one
    task for the script found, restricted to a non-empty list of its
    parameter names: those, in declaration order, whose [lower()] is the
    [lower()] of a requested name.  No publish job is registered for the batch. *)
Theorem precalc_request_outcome (st : State)
  (script_org script_name script_version : string) (requested : list string)
  (uuid : string) :
  match fst (handle_precalc st script_org script_name script_version
               requested uuid) with
  | Ok batch_id =>
      batch_id = uuid /\
      exists s validated_params,
        get_script_request (library st) script_org script_name script_version
          = Some s /\
        validated_params <> [] /\
        validated_params =
          filter (fun p => existsb (String.eqb (lower p))
                             (map lower requested))
            (dict_keys (params (base s))) /\
        (forall p, In p validated_params <->
           In p (dict_keys (params (base s))) /\
           exists q, In q requested /\ lower p = lower q) /\
        created_tasks
          (snd (handle_precalc st script_org script_name script_version
                  requested uuid)) =
          (created_tasks st ++
           [mkCacheTask (RequestScript s) (Some validated_params) uuid
              PrecalcDone])%list /\
        publish_jobs
          (snd (handle_precalc st script_org script_name script_version
                  requested uuid)) = publish_jobs st
  | Raise e =>
      e = HTTPException 400 /\
      snd (handle_precalc st script_org script_name script_version
             requested uuid) = st
  end.
Proof.
  subst handle_precalc. unfold _handle_precalc_request.
  destruct (get_script_request (library st) script_org script_name
              script_version) as [s |]; [| now split].
  set (vp := filter _ _).
  assert (Hvp : forall p, In p vp <->
            In p (dict_keys (params (base s))) /\
            exists q, In q requested /\ lower p = lower q).
  { intros p. subst vp. rewrite filter_In, existsb_exists.
    split; intros [Hin (x & Hx & E)]; (split; [exact Hin |]).
    - apply in_map_iff in Hx as (q & <- & Hq). apply String.eqb_eq in E.
      now exists q.
    - exists (lower x). split; [now apply in_map |].
      now apply String.eqb_eq. }
  destruct vp as [|p0 vp'] eqn:E; [now split |].
  cbn [fst snd]. split; [reflexivity |].
  exists s, (p0 :: vp').
  split; [reflexivity |]. split; [discriminate |].
  split; [symmetry; exact E |]. split; [exact Hvp |].
  split; reflexivity.
Qed.

(** The pre-calculation route called without parameter names never starts
    anything: whatever the credentials and the script, the answer is an
    error, 401 or 400, and the state is as before. *)
Theorem precalc_without_names (st : State) (credentials : HTTPBasicCredentials)
  (script_org script_name script_version uuid : string) :
  snd (route st credentials uuid
         (GetPrecalc script_org script_name script_version "")) = st /\
  (fst (route st credentials uuid
          (GetPrecalc script_org script_name script_version ""))
     = Raise (HTTPException 401) \/
   fst (route st credentials uuid
          (GetPrecalc script_org script_name script_version ""))
     = Raise (HTTPException 400)).
Proof.
  subst route. unfold serve, precalc, depends_validate_credentials.
  destruct (_validate_credentials st credentials) as [c | e] eqn:E.
  - unfold then_respond, _handle_precalc_request.
    change (0 <? str_len "") with false. cbv iota.
    destruct (get_script_request (library st) script_org script_name
                script_version) as [s |]; cbn [fst snd bind].
    + replace (filter _ (dict_keys (params (base s)))) with (@nil string).
      * split; [reflexivity | now right].
      * symmetry. cbn [map existsb].
        induction (dict_keys (params (base s))); [reflexivity | assumption].
    + split; [reflexivity | now right].
  - unfold _validate_credentials in E.
    destruct (negb _); [| discriminate]. injection E as <-.
    split; [reflexivity | now left].
Qed.

(** Credentials are accepted exactly when the user name is [admin] and the
    password is the passphrase of the instance; any others are answered
    with 401. *)
Theorem _validate_credentials_accepts (st : State)
  (credentials : HTTPBasicCredentials) :
  (_validate_credentials st credentials = Ok credentials <->
   username credentials = SECURITY_ADMIN_USERNAME /\
   password credentials = passphrase st) /\
  (_validate_credentials st credentials = Ok credentials \/
   _validate_credentials st credentials = Raise (HTTPException 401)).
Proof.
  unfold _validate_credentials, compare_digest.
  destruct (String.eqb (username credentials) SECURITY_ADMIN_USERNAME) eqn:Eu;
    destruct (String.eqb (password credentials) (passphrase st)) eqn:Ep;
    cbn [andb negb].
  - apply String.eqb_eq in Eu, Ep. split; [tauto | now left].
  - apply String.eqb_neq in Ep.
    split; [split; [discriminate | tauto] | now right].
  - apply String.eqb_neq in Eu.
    split; [split; [discriminate | tauto] | now right].
  - apply String.eqb_neq in Eu.
    split; [split; [discriminate | tauto] | now right].
Qed.

(** The publish, publish-job, unpublish and pre-calculation routes answer
    401 to a wrong user name or a wrong password, and nothing of the state
    changes. *)
Theorem guarded_routes_reject_wrong_credentials (st : State)
  (credentials : HTTPBasicCredentials) (uuid : string) (r : AdminRequest) :
  username credentials <> SECURITY_ADMIN_USERNAME \/
  password credentials <> passphrase st ->
  (forall batch_id, r <> GetPrecalcJob batch_id) ->
  route st credentials uuid r = (Raise (HTTPException 401), st).
Proof.
  intros Hbad Hr. subst route. apply guarded_routes_reject; [| exact Hr].
  unfold _validate_credentials, compare_digest.
  destruct Hbad as [H | H]; apply String.eqb_neq in H; rewrite H;
    [reflexivity |].
  now rewrite andb_false_r.
Qed.

End PrecalcFacts.

(** *** The theorems above on the demonstration library *)

Lemma publish_error_outcome_witness :
  Admin.created_tasks
    (snd (Demo._handle_publish_request (Demo.state [])
            (Admin.mkPublishRequest true (Some Demo.panel)) "batch-1"))
    = Admin.created_tasks (Demo.state []) /\
  Admin.publish_jobs
    (snd (Demo._handle_publish_request (Demo.state [])
            (Admin.mkPublishRequest true (Some Demo.panel)) "batch-1"))
    = Admin.publish_jobs (Demo.state []) /\
  (AttributeError = HTTPException 400 /\
   Admin.api
     (snd (Demo._handle_publish_request (Demo.state [])
             (Admin.mkPublishRequest true (Some Demo.panel)) "batch-1"))
     = Admin.api (Demo.state [])
   \/
   AttributeError = AttributeError /\
   Admin.pre_calculate (Admin.mkPublishRequest true (Some Demo.panel)) = true /\
   exists s,
     Admin.script (Admin.mkPublishRequest true (Some Demo.panel)) = Some s /\
     fst (Demo.add_script (Admin.library (Demo.state [])) s) = true /\
     Admin.library
       (snd (Demo._handle_publish_request (Demo.state [])
               (Admin.mkPublishRequest true (Some Demo.panel)) "batch-1"))
       = snd (Demo.add_script (Admin.library (Demo.state [])) s) /\
     Admin.api
       (snd (Demo._handle_publish_request (Demo.state [])
               (Admin.mkPublishRequest true (Some Demo.panel)) "batch-1"))
       = Demo.generate (Demo.generate (Admin.api (Demo.state [])) s) s).
Proof.
  apply (publish_error_outcome Demo.add_script Demo.generate Demo.generate
           "job-0" 0 (Demo.state [])
           (Admin.mkPublishRequest true (Some Demo.panel)) "batch-1"
           AttributeError).
  reflexivity.
Defined.

Lemma publish_success_not_registered_witness :
  Admin.job_id (Admin.mkPublishJob "job-0" 0 0 Demo.panel
                  (Some Admin.success) (@None nat)) = "job-0" /\
  Admin.created_tasks
    (snd (Demo._handle_publish_request (Demo.state [])
            (Admin.mkPublishRequest false (Some Demo.panel)) "batch-1"))
    = Admin.created_tasks (Demo.state []) /\
  Admin.publish_jobs
    (snd (Demo._handle_publish_request (Demo.state [])
            (Admin.mkPublishRequest false (Some Demo.panel)) "batch-1"))
    = Admin.publish_jobs (Demo.state []) /\
  (dict_get (Admin.publish_jobs (Demo.state [])) "job-0" = None ->
   fst (Demo._get_publish_job
          (snd (Demo._handle_publish_request (Demo.state [])
                  (Admin.mkPublishRequest false (Some Demo.panel)) "batch-1"))
          (Admin.job_id (Admin.mkPublishJob "job-0" 0 0 Demo.panel
                           (Some Admin.success) (@None nat))))
     = Raise (HTTPException 404)).
Proof.
  apply (publish_success_not_registered Demo.add_script Demo.get_compute_batch
           Demo.generate Demo.generate "job-0" 0
           (Demo.state []) (Admin.mkPublishRequest false (Some Demo.panel))
           "batch-1").
  - reflexivity.
  - reflexivity.
Defined.

Lemma guarded_routes_reject_wrong_credentials_witness :
  Demo.serve (Demo.state [Demo.panel])
    (Admin.mkCredentials "admin" "letmein") "batch-1"
    (Admin.PostPublish (Admin.mkPublishRequest true (Some Box.script)))
  = (Raise (HTTPException 401), Demo.state [Demo.panel]).
Proof.
  apply (guarded_routes_reject_wrong_credentials Demo.add_script
           Demo.get_script_request Demo.get_compute_batch Demo.generate
           Demo.generate ascii_str_lower "job-0" 0 (Demo.state [Demo.panel])
           (Admin.mkCredentials "admin" "letmein") "batch-1").
  - right. simpl. discriminate.
  - intros batch_id. discriminate.
Defined.

(** ** Identities that coincide *)

(** The identity depends on the script and the assignment only through
    the text made of the script name followed by [name=value&] for each
    pair: two scripts with two assignments that give the same text get the
    same identity.  The integer 1 and the string "1" are therefore not told
    apart, nor is the place where the name ends and the first parameter
    begins. *)
Theorem hash_by_text (self self' : ScriptObject) (A B : dict PyVal) :
  name (script_of self) ++ String.concat "" (map segment A) =
  name (script_of self') ++ String.concat "" (map segment B) ->
  fst (hash self (Some A)) = fst (hash self' (Some B)).
Proof.
  intros H. rewrite !hash_given. unfold hash_with, hash_of.
  rewrite !params_str_concat, H.
  destruct self, self'; reflexivity.
Qed.

Lemma hash_by_text_witness :
  fst (hash (PlainScript Collide.bo) (Some Collide.bo_params)) =
  fst (hash (PlainScript Collide.box) (Some Collide.box_params)).
Proof.
  apply (hash_by_text (PlainScript Collide.bo) (PlainScript Collide.box)
           Collide.bo_params Collide.box_params).
  vm_compute. reflexivity.
Defined.

(** ** A script without parameters *)

(** A script that declares no parameter has one variant: the iteration
    yields the empty assignment once, under the hash of the script name
    alone, and [get_num_variants()] is 1. *)
Theorem iterate_no_params (self : ScriptObject) :
  params (script_of self) = [] ->
  get_num_variants (script_of self) None = Some 1 /\
  exists self',
    iterate_possible_model_params_dicts self =
      Ok ([(Some (_hash (name (script_of self))), [])], self') /\
    script_of self' = script_of self.
Proof.
  intros H. split.
  - unfold get_num_variants, selected_params. now rewrite H.
  - unfold iterate_possible_model_params_dicts, all_values_per_parameter.
    rewrite H. cbn [dict_values map iter_all bind product yield_each].
    unfold param_values_of. rewrite H.
    cbn [dict_values map combine].
    change (dict_of_pairs (@nil (string * PyVal))) with (@nil (string * PyVal)).
    rewrite hash_given.
    eexists. split.
    + unfold hash_with at 1, hash_of. cbn [params_str fst].
      rewrite append_nil_r.
      destruct self; cbn [fst]; reflexivity.
    + unfold hash_with. destruct self; reflexivity.
Qed.

Lemma iterate_no_params_witness :
  get_num_variants plain_script None = Some 1 /\
  exists self',
    iterate_possible_model_params_dicts (PlainScript plain_script) =
      Ok ([(Some (_hash (name plain_script)), [])], self') /\
    script_of self' = plain_script.
Proof.
  apply (iterate_no_params (PlainScript plain_script)).
  reflexivity.
Defined.
